(** * ModemManager: firmware-update settings codec and extended-signal polling

    A shallow embedding of

      - [libmm-glib/mm-firmware-update-settings.c]: the settings object and
        its GVariant encoding and decoding, and
      - [src/mm-iface-modem-signal.c]: the extended signal interface, its
        refresh context, the polling timer and the authorised [Setup] method.

    C integers ([guint], enum values) are [Z]; a pointer that may be [NULL] is
    an [option]; the GLib objects the code touches (variants, the variant
    builder, the D-Bus skeleton, the main-loop timeout sources) are modelled
    by the part of their documented behaviour that the two files rely on. *)

From Stdlib Require Import PrimFloat ZArith List Ascii String Bool Lia Eqdep_dec.
Import ListNotations.

Open Scope Z_scope.
Open Scope string_scope.
Open Scope list_scope.

(** ** GLib values shared by both files *)

(** [GError]: the MM_CORE_ERROR codes the two files raise, and any error
    produced elsewhere (the authorisation check, a backend). *)
Inductive GErrorCode : Type :=
| MM_CORE_ERROR_FAILED
| MM_CORE_ERROR_INVALID_ARGS
| MM_CORE_ERROR_UNSUPPORTED
| G_ERROR_FOREIGN (domain : string) (code : Z).

Record GError : Type := g_error_new {
  error_code : GErrorCode;
  error_message : string
}.

(** What a C function returning a value or [NULL]/[FALSE] plus a [GError]
    yields. *)
Inductive result (A : Type) : Type :=
| Ok (a : A)
| Error (e : GError).
Arguments Ok {A} a.
Arguments Error {A} e.

(** C strings ([gchar *]) are [string]s, byte by byte; a C string has no
    NUL byte.  [g_utf8_validate (str, -1, NULL)]: the bytes are well-formed
    UTF-8, with no overlong form, no surrogate and nothing above U+10FFFF. *)
Definition byte_in (lo hi : N) (c : ascii) : bool :=
  let n := N_of_ascii c in N.leb lo n && N.leb n hi.

Definition is_continuation (c : ascii) : bool := byte_in 128 191 c.

Fixpoint g_utf8_validate (s : string) : bool :=
  match s with
  | EmptyString => true
  | String c rest =>
      if byte_in 1 127 c then g_utf8_validate rest
      else if byte_in 194 223 c then
        match rest with
        | String c1 rest1 => is_continuation c1 && g_utf8_validate rest1
        | _ => false
        end
      else if byte_in 224 239 c then
        match rest with
        | String c1 (String c2 rest2) =>
            (if byte_in 224 224 c then byte_in 160 191 c1
             else if byte_in 237 237 c then byte_in 128 159 c1
             else is_continuation c1)
            && is_continuation c2 && g_utf8_validate rest2
        | _ => false
        end
      else if byte_in 240 244 c then
        match rest with
        | String c1 (String c2 (String c3 rest3)) =>
            (if byte_in 240 240 c then byte_in 144 191 c1
             else if byte_in 244 244 c then byte_in 128 143 c1
             else is_continuation c1)
            && is_continuation c2 && is_continuation c3
            && g_utf8_validate rest3
        | _ => false
        end
      else false
  end.

(** The text of a string variant: GLib only ever builds or hands out string
    values that are valid UTF-8. *)
Record utf8 : Type := mk_utf8 {
  utf8_bytes : string;
  utf8_valid : g_utf8_validate utf8_bytes = true
}.

Definition g_utf8_validate_dec (s : string)
  : {g_utf8_validate s = true} + {g_utf8_validate s = false} :=
  match g_utf8_validate s as b return {b = true} + {b = false} with
  | true => left eq_refl
  | false => right eq_refl
  end.

(** A string literal as text; the empty text when it is not valid UTF-8. *)
Definition utf8_text (s : string) : utf8 :=
  match g_utf8_validate_dec s with
  | left valid => mk_utf8 s valid
  | right _ => mk_utf8 EmptyString eq_refl
  end.

(** The GVariant types and values in use: [b], [u], [d], [s], the
    dictionary [a{sv}] (an ordered array of entries, duplicates allowed, each
    value boxed as [v]) and tuples. *)
#[warnings="-register-all"] Inductive GVariantType : Type :=
| GVT_boolean
| GVT_uint32
| GVT_double
| GVT_string
| GVT_vardict
| GVT_tuple (items : list GVariantType).

#[warnings="-register-all"] Inductive GVariant : Type :=
| GV_boolean (b : bool)
| GV_uint32 (n : Z)
| GV_double (d : float)
| GV_string (s : utf8)
| GV_vardict (entries : list (string * GVariant))
| GV_tuple (items : list GVariant).

Fixpoint g_variant_get_type (v : GVariant) : GVariantType :=
  match v with
  | GV_boolean _ => GVT_boolean
  | GV_uint32 _ => GVT_uint32
  | GV_double _ => GVT_double
  | GV_string _ => GVT_string
  | GV_vardict _ => GVT_vardict
  | GV_tuple items => GVT_tuple (map g_variant_get_type items)
  end.

Fixpoint g_variant_type_equal (a b : GVariantType) : bool :=
  match a, b with
  | GVT_boolean, GVT_boolean => true
  | GVT_uint32, GVT_uint32 => true
  | GVT_double, GVT_double => true
  | GVT_string, GVT_string => true
  | GVT_vardict, GVT_vardict => true
  | GVT_tuple xs, GVT_tuple ys =>
      (fix all2 (xs ys : list GVariantType) : bool :=
         match xs, ys with
         | [], [] => true
         | x :: xs', y :: ys' => g_variant_type_equal x y && all2 xs' ys'
         | _, _ => false
         end) xs ys
  | _, _ => false
  end.

(** For the definite types used here, [g_variant_is_of_type] is equality of
    the value's type with the given one. *)
Definition g_variant_is_of_type (v : GVariant) (t : GVariantType) : bool :=
  g_variant_type_equal (g_variant_get_type v) t.

(** [G_VARIANT_TYPE ("(ua{sv})")] and [G_VARIANT_TYPE ("(bd)")]. *)
Definition G_VARIANT_TYPE_ua_sv : GVariantType :=
  GVT_tuple [GVT_uint32; GVT_vardict].
Definition G_VARIANT_TYPE_bd : GVariantType :=
  GVT_tuple [GVT_boolean; GVT_double].

(** [g_variant_new_string]: [NULL], or a string that is not valid UTF-8,
    fails the precondition and [NULL] is returned. *)
Definition g_variant_new_string (s : option string) : option GVariant :=
  match s with
  | Some str =>
      match g_utf8_validate_dec str with
      | left valid => Some (GV_string (mk_utf8 str valid))
      | right _ => None
      end
  | None => None
  end.

(** [g_variant_dup_string (value, NULL)]: a copy of the string, [NULL] when
    the value is not a string. *)
Definition g_variant_dup_string (value : GVariant) : option string :=
  match value with
  | GV_string s => Some (utf8_bytes s)
  | _ => None
  end.

(** [GVariantBuilder] for a tuple, with at most one [a{sv}] sub-container open
    at a time. *)
Record GVariantBuilder : Type := {
  gvb_type : GVariantType;
  gvb_children : list GVariant;
  gvb_open : option (list (string * GVariant))
}.

Definition g_variant_builder_init (t : GVariantType) : GVariantBuilder :=
  {| gvb_type := t; gvb_children := []; gvb_open := None |}.

Definition g_variant_builder_add_u (b : GVariantBuilder) (n : Z)
  : GVariantBuilder :=
  {| gvb_type := gvb_type b;
     gvb_children := gvb_children b ++ [GV_uint32 n];
     gvb_open := gvb_open b |}.

Definition g_variant_builder_open_vardict (b : GVariantBuilder)
  : GVariantBuilder :=
  {| gvb_type := gvb_type b;
     gvb_children := gvb_children b;
     gvb_open := Some [] |}.

(** [g_variant_builder_add (&builder, "{sv}", key, value)]; a [NULL] value
    cannot be boxed, the entry is refused and the container stays as it
    is. *)
Definition g_variant_builder_add_sv (b : GVariantBuilder) (key : string)
    (value : option GVariant) : GVariantBuilder :=
  match value with
  | Some v =>
      {| gvb_type := gvb_type b;
         gvb_children := gvb_children b;
         gvb_open := match gvb_open b with
                     | Some entries => Some (entries ++ [(key, v)])
                     | None => None
                     end |}
  | None => b
  end.

Definition g_variant_builder_close (b : GVariantBuilder) : GVariantBuilder :=
  match gvb_open b with
  | Some entries =>
      {| gvb_type := gvb_type b;
         gvb_children := gvb_children b ++ [GV_vardict entries];
         gvb_open := None |}
  | None => b
  end.

(** [g_variant_builder_end]: the tuple of the children added, provided no
    sub-container is still open and the children are those the builder's type
    asks for; otherwise the call fails its precondition and returns [NULL]
    (too few items for a container with a fixed number of children). *)
Definition g_variant_builder_end (b : GVariantBuilder) : option GVariant :=
  match gvb_open b with
  | Some _ => None
  | None =>
      let v := GV_tuple (gvb_children b) in
      if g_variant_is_of_type v (gvb_type b) then Some v else None
  end.

(** ** libmm-glib/mm-firmware-update-settings.c *)

Module FirmwareUpdateSettings.

Section Codec.

(** [MMModemFirmwareUpdateMethod] is declared in a header outside these
    sources.  Modelled from the spec: [MM_MODEM_FIRMWARE_UPDATE_METHOD_UNKNOWN]
    is the discriminant 0.  The value of the fastboot method is not given
    anywhere, so it is a parameter; as an enumerator of the same enum it
    differs from UNKNOWN, which the statements that need it assume. *)
Definition MM_MODEM_FIRMWARE_UPDATE_METHOD_UNKNOWN : Z := 0.
Variable MM_MODEM_FIRMWARE_UPDATE_METHOD_FASTBOOT : Z.

Definition PROPERTY_FASTBOOT_AT : string := "fastboot-at".

(** [struct _MMFirmwareUpdateSettingsPrivate]. *)
Record MMFirmwareUpdateSettings : Type := {
  method : Z;
  fastboot_at : option string
}.

(** What the codec does to settings objects and dictionary entries, in
    order: an object is constructed, an entry is handed to
    [consume_variant], the object is dropped ([g_object_unref]). *)
Inductive CodecEvent : Type :=
| EvObjectNew (m : Z)
| EvConsume (key : string)
| EvObjectUnref.

(** [mm_firmware_update_settings_new]; [g_object_new] zero-fills the private
    structure and [_init] sets the method to UNKNOWN before it is assigned. *)
Definition mm_firmware_update_settings_init : MMFirmwareUpdateSettings :=
  {| method := MM_MODEM_FIRMWARE_UPDATE_METHOD_UNKNOWN; fastboot_at := None |}.

Definition mm_firmware_update_settings_new (m : Z) : MMFirmwareUpdateSettings :=
  let self := mm_firmware_update_settings_init in
  {| method := m; fastboot_at := fastboot_at self |}.

Definition mm_firmware_update_settings_get_method
    (self : option MMFirmwareUpdateSettings) : Z :=
  match self with
  | Some s => method s
  | None => MM_MODEM_FIRMWARE_UPDATE_METHOD_UNKNOWN
  end.

Definition mm_firmware_update_settings_get_fastboot_at
    (self : option MMFirmwareUpdateSettings) : option string :=
  match self with
  | Some s =>
      if Z.eqb (method s) MM_MODEM_FIRMWARE_UPDATE_METHOD_FASTBOOT
      then fastboot_at s else None
  | None => None
  end.

(** [g_return_if_fail] leaves the object as it is for any other method. *)
Definition mm_firmware_update_settings_set_fastboot_at
    (self : MMFirmwareUpdateSettings) (at_cmd : option string)
  : MMFirmwareUpdateSettings :=
  if Z.eqb (method self) MM_MODEM_FIRMWARE_UPDATE_METHOD_FASTBOOT
  then {| method := method self; fastboot_at := at_cmd |}
  else self.

(** [mm_firmware_update_settings_get_variant].  The builder is always
    initialised for [(ua{sv})]; only the fastboot case opens, fills and
    closes the dictionary, and it does so whatever [g_variant_new_string]
    returns.  ([self] can be [NULL] in the fastboot case only if that method
    were UNKNOWN; the dereference then has no defined result.) *)
Definition mm_firmware_update_settings_get_variant
    (self : option MMFirmwareUpdateSettings) : option GVariant :=
  let m := match self with
           | Some s => method s
           | None => MM_MODEM_FIRMWARE_UPDATE_METHOD_UNKNOWN
           end in
  let builder := g_variant_builder_init G_VARIANT_TYPE_ua_sv in
  let builder := g_variant_builder_add_u builder m in
  if Z.eqb m MM_MODEM_FIRMWARE_UPDATE_METHOD_FASTBOOT then
    match self with
    | Some s =>
        let builder := g_variant_builder_open_vardict builder in
        let builder :=
          g_variant_builder_add_sv builder PROPERTY_FASTBOOT_AT
            (g_variant_new_string (fastboot_at s)) in
        let builder := g_variant_builder_close builder in
        g_variant_builder_end builder
    | None => None
    end
  else g_variant_builder_end builder.

Definition invalid_args (msg : string) : GError :=
  g_error_new MM_CORE_ERROR_INVALID_ARGS msg.

Definition unexpected_key (key : string) : GError :=
  invalid_args
    ("Invalid settings dictionary, unexpected key '" ++ key ++ "'")%string.

(** [consume_variant]: the object after the call, and the error when the
    call returns [FALSE]. *)
Definition consume_variant (self : MMFirmwareUpdateSettings) (key : string)
    (value : GVariant) : MMFirmwareUpdateSettings * option GError :=
  if String.eqb key PROPERTY_FASTBOOT_AT then
    ({| method := method self; fastboot_at := g_variant_dup_string value |},
     None)
  else (self, Some (unexpected_key key)).

(** The loop [while (!inner_error && g_variant_iter_next (...))]: the object,
    the error and the entries consumed. *)
Fixpoint consume_entries (self : MMFirmwareUpdateSettings)
    (inner_error : option GError) (iter : list (string * GVariant))
  : MMFirmwareUpdateSettings * option GError * list CodecEvent :=
  match inner_error with
  | Some _ => (self, inner_error, [])
  | None =>
      match iter with
      | [] => (self, None, [])
      | (key, value) :: rest =>
          let '(self', err) := consume_variant self key value in
          let '(self'', err', evs) := consume_entries self' err rest in
          (self'', err', EvConsume key :: evs)
      end
  end.

Definition fastboot_at_required : GError :=
  invalid_args
    ("Fastboot method requires the '" ++ PROPERTY_FASTBOOT_AT ++ "' setting")%string.

(** [mm_firmware_update_settings_new_from_variant]: the object or the error,
    together with what was done on the way. *)
Definition mm_firmware_update_settings_new_from_variant
    (variant : option GVariant)
  : result MMFirmwareUpdateSettings * list CodecEvent :=
  match variant with
  | None => (Error (invalid_args "No input given"), [])
  | Some v =>
      if negb (g_variant_is_of_type v G_VARIANT_TYPE_ua_sv) then
        (Error (invalid_args "Invalid input type"), [])
      else
        (* g_variant_get (variant, "(u@a{sv})", &method, &dictionary): for a
           value of this type the dictionary is never NULL *)
        match v with
        | GV_tuple [GV_uint32 m; GV_vardict dictionary] =>
            let self := mm_firmware_update_settings_new m in
            let '(self, inner_error, consumed) :=
              consume_entries self None dictionary in
            let inner_error :=
              match inner_error with
              | Some e => Some e
              | None =>
                  if Z.eqb m MM_MODEM_FIRMWARE_UPDATE_METHOD_FASTBOOT then
                    match fastboot_at self with
                    | None => Some fastboot_at_required
                    | Some _ => None
                    end
                  else None
              end in
            match inner_error with
            | Some e =>
                (Error e, EvObjectNew m :: consumed ++ [EvObjectUnref])
            | None => (Ok self, EvObjectNew m :: consumed)
            end
        | _ => (Error (invalid_args "Invalid input type"), [])
        end
  end.

(** The decoder as a function of the wire value alone. *)
Definition decode (variant : option GVariant)
  : result MMFirmwareUpdateSettings :=
  fst (mm_firmware_update_settings_new_from_variant variant).

(** A settings value whose required fields are set: the fastboot method
    needs its AT command. *)
Definition valid_settings (s : MMFirmwareUpdateSettings) : Prop :=
  method s = MM_MODEM_FIRMWARE_UPDATE_METHOD_FASTBOOT -> fastboot_at s <> None.

(** A dictionary whose keys are all "fastboot-at". *)
Definition all_fastboot_at (dictionary : list (string * GVariant)) : Prop :=
  forall key value, In (key, value) dictionary -> key = PROPERTY_FASTBOOT_AT.

(** The field left by consuming a dictionary of "fastboot-at" entries in
    order: each entry overwrites it with its string, or with [NULL] when its
    value is not a string. *)
Definition consumed_fastboot_at (init : option string)
    (dictionary : list (string * GVariant)) : option string :=
  fold_left (fun _ entry => g_variant_dup_string (snd entry)) dictionary init.

(** Objects constructed and objects dropped in a run of codec events. *)
Definition is_object_new (e : CodecEvent) : bool :=
  match e with EvObjectNew _ => true | _ => false end.

Definition is_object_unref (e : CodecEvent) : bool :=
  match e with EvObjectUnref => true | _ => false end.

Definition objects_constructed (evs : list CodecEvent) : nat :=
  List.length (filter is_object_new evs).

Definition objects_dropped (evs : list CodecEvent) : nat :=
  List.length (filter is_object_unref evs).

End Codec.

End FirmwareUpdateSettings.

(** ** src/mm-iface-modem-signal.c *)

Module IfaceModemSignal.

Section Polling.

(** [MMModemState] is declared in a header outside these sources; the code
    only compares the state with [MM_MODEM_STATE_ENABLING], a parameter here. *)
Variable MM_MODEM_STATE_ENABLING : Z.

(** A published measurement, [g_variant_new ("(bd)", available, value)]. *)
Definition signal_value (available : bool) (value : float) : GVariant :=
  GV_tuple [GV_boolean available; GV_double value].

Definition unavailable : GVariant := signal_value false 0%float.

(** The measurement properties of the D-Bus skeleton; a property never set
    holds no variant. *)
Record SignalProperties : Type := {
  prop_cdma_rssi : option GVariant;
  prop_cdma_ecio : option GVariant;
  prop_evdo_rssi : option GVariant;
  prop_evdo_ecio : option GVariant;
  prop_evdo_sinr : option GVariant;
  prop_evdo_io : option GVariant;
  prop_gsm_rssi : option GVariant;
  prop_umts_rssi : option GVariant;
  prop_umts_ecio : option GVariant;
  prop_lte_rssi : option GVariant;
  prop_lte_rsrq : option GVariant;
  prop_lte_rsrp : option GVariant;
  prop_lte_snr : option GVariant
}.

(** [MmGdbusModemSignal]: the [Rate] property, the measurements, and whether
    [handle_setup] is connected to the skeleton's "handle-setup" signal. *)
Record MmGdbusModemSignal : Type := {
  prop_rate : Z;
  properties : SignalProperties;
  handle_setup_connected : bool
}.

(** [mm_gdbus_modem_signal_skeleton_new] is generated code: a fresh skeleton
    has rate 0 and no measurement set. *)
Definition mm_gdbus_modem_signal_skeleton_new : MmGdbusModemSignal :=
  {| prop_rate := 0;
     properties :=
       {| prop_cdma_rssi := None; prop_cdma_ecio := None;
          prop_evdo_rssi := None; prop_evdo_ecio := None;
          prop_evdo_sinr := None; prop_evdo_io := None;
          prop_gsm_rssi := None;
          prop_umts_rssi := None; prop_umts_ecio := None;
          prop_lte_rssi := None; prop_lte_rsrq := None;
          prop_lte_rsrp := None; prop_lte_snr := None |};
     handle_setup_connected := false |}.

Definition mm_gdbus_modem_signal_get_rate (skeleton : MmGdbusModemSignal) : Z :=
  prop_rate skeleton.

Definition mm_gdbus_modem_signal_set_rate (skeleton : MmGdbusModemSignal)
    (new_rate : Z) : MmGdbusModemSignal :=
  {| prop_rate := new_rate;
     properties := properties skeleton;
     handle_setup_connected := handle_setup_connected skeleton |}.

Definition set_properties (skeleton : MmGdbusModemSignal)
    (p : SignalProperties) : MmGdbusModemSignal :=
  {| prop_rate := prop_rate skeleton;
     properties := p;
     handle_setup_connected := handle_setup_connected skeleton |}.

(** The thirteen setter calls of [clear_values], each with
    [(FALSE, 0.0)]. *)
Definition cleared_properties : SignalProperties :=
  {| prop_cdma_rssi := Some unavailable; prop_cdma_ecio := Some unavailable;
     prop_evdo_rssi := Some unavailable; prop_evdo_ecio := Some unavailable;
     prop_evdo_sinr := Some unavailable; prop_evdo_io := Some unavailable;
     prop_gsm_rssi := Some unavailable;
     prop_umts_rssi := Some unavailable; prop_umts_ecio := Some unavailable;
     prop_lte_rssi := Some unavailable; prop_lte_rsrq := Some unavailable;
     prop_lte_rsrp := Some unavailable; prop_lte_snr := Some unavailable |}.

(** What [load_values_finish] writes through its out-parameters. *)
Record LoadedValues : Type := {
  cdma_available : bool;
  cdma_rssi : float;
  cdma_ecio : float;
  evdo_available : bool;
  evdo_rssi : float;
  evdo_ecio : float;
  evdo_sinr : float;
  evdo_io : float;
  gsm_available : bool;
  gsm_rssi : float;
  umts_available : bool;
  umts_rssi : float;
  umts_ecio : float;
  lte_available : bool;
  lte_rssi : float;
  lte_rsrq : float;
  lte_rsrp : float;
  lte_snr : float
}.

(** The thirteen setter calls of [load_values_ready]. *)
Definition loaded_properties (v : LoadedValues) : SignalProperties :=
  {| prop_cdma_rssi := Some (signal_value (cdma_available v) (cdma_rssi v));
     prop_cdma_ecio := Some (signal_value (cdma_available v) (cdma_ecio v));
     prop_evdo_rssi := Some (signal_value (evdo_available v) (evdo_rssi v));
     prop_evdo_ecio := Some (signal_value (evdo_available v) (evdo_ecio v));
     prop_evdo_sinr := Some (signal_value (evdo_available v) (evdo_sinr v));
     prop_evdo_io := Some (signal_value (evdo_available v) (evdo_io v));
     prop_gsm_rssi := Some (signal_value (gsm_available v) (gsm_rssi v));
     prop_umts_rssi := Some (signal_value (umts_available v) (umts_rssi v));
     prop_umts_ecio := Some (signal_value (umts_available v) (umts_ecio v));
     prop_lte_rssi := Some (signal_value (lte_available v) (lte_rssi v));
     prop_lte_rsrq := Some (signal_value (lte_available v) (lte_rsrq v));
     prop_lte_rsrp := Some (signal_value (lte_available v) (lte_rsrp v));
     prop_lte_snr := Some (signal_value (lte_available v) (lte_snr v)) |}.

(** [RefreshContext]; [timeout_source] 0 means no timer. *)
Record RefreshContext : Type := {
  rate : Z;
  timeout_source : Z
}.

(** [HandleSetupContext]: the invocation and the requested rate (the skeleton
    and the object it also references are those of the world). *)
Record HandleSetupContext : Type := {
  invocation : Z;
  setup_rate : Z
}.

Definition handle_setup_context_eqb (a b : HandleSetupContext) : bool :=
  Z.eqb (invocation a) (invocation b) && Z.eqb (setup_rate a) (setup_rate b).

(** The interface vtable: which of the two optional operations the backend
    provides. *)
Record MMIfaceModemSignal : Type := {
  load_values : bool;
  load_values_finish : bool
}.

Inductive LogLevel : Type := LogDebug | LogWarn.
Inductive LogArg : Type := ArgUint (n : Z) | ArgString (s : string).
Inductive MMAuthRequest : Type := MM_AUTHORIZATION_DEVICE_CONTROL.

(** What the code does to its collaborators, in order. *)
Inductive Event : Type :=
| EvLog (level : LogLevel) (fmt : string) (args : list LogArg)
| EvLoadValues
| EvTimeoutAdd (id : Z) (interval : Z)
| EvSourceRemove (id : Z)
| EvFlush
| EvAuthorize (inv : Z) (scope : MMAuthRequest)
| EvTakeError (inv : Z) (e : GError)
| EvCompleteSetup (inv : Z).

(** The object and what surrounds it: the vtable, the skeleton property, the
    interface exported on the object skeleton, the modem state property, the
    refresh context stored as object data, the main loop's timeout sources
    (id and interval) with the next id it hands out, the asynchronous calls
    not yet completed, and the events so far. *)
Record World : Type := {
  iface : MMIfaceModemSignal;
  dbus_skeleton : option MmGdbusModemSignal;
  exported : bool;
  modem_state : Z;
  refresh_context : option RefreshContext;
  sources : list (Z * Z);
  next_source_id : Z;
  loads_in_flight : nat;
  auth_in_flight : list HandleSetupContext;
  trace : list Event
}.

Definition set_dbus_skeleton (v : option MmGdbusModemSignal) (w : World) : World :=
  {| iface := iface w; dbus_skeleton := v; exported := exported w;
     modem_state := modem_state w; refresh_context := refresh_context w;
     sources := sources w; next_source_id := next_source_id w;
     loads_in_flight := loads_in_flight w;
     auth_in_flight := auth_in_flight w; trace := trace w |}.

Definition set_exported (v : bool) (w : World) : World :=
  {| iface := iface w; dbus_skeleton := dbus_skeleton w; exported := v;
     modem_state := modem_state w; refresh_context := refresh_context w;
     sources := sources w; next_source_id := next_source_id w;
     loads_in_flight := loads_in_flight w;
     auth_in_flight := auth_in_flight w; trace := trace w |}.

Definition set_modem_state (v : Z) (w : World) : World :=
  {| iface := iface w; dbus_skeleton := dbus_skeleton w; exported := exported w;
     modem_state := v; refresh_context := refresh_context w;
     sources := sources w; next_source_id := next_source_id w;
     loads_in_flight := loads_in_flight w;
     auth_in_flight := auth_in_flight w; trace := trace w |}.

Definition set_refresh_context (v : option RefreshContext) (w : World) : World :=
  {| iface := iface w; dbus_skeleton := dbus_skeleton w; exported := exported w;
     modem_state := modem_state w; refresh_context := v;
     sources := sources w; next_source_id := next_source_id w;
     loads_in_flight := loads_in_flight w;
     auth_in_flight := auth_in_flight w; trace := trace w |}.

Definition set_sources (v : list (Z * Z)) (n : Z) (w : World) : World :=
  {| iface := iface w; dbus_skeleton := dbus_skeleton w; exported := exported w;
     modem_state := modem_state w; refresh_context := refresh_context w;
     sources := v; next_source_id := n;
     loads_in_flight := loads_in_flight w;
     auth_in_flight := auth_in_flight w; trace := trace w |}.

Definition set_loads_in_flight (v : nat) (w : World) : World :=
  {| iface := iface w; dbus_skeleton := dbus_skeleton w; exported := exported w;
     modem_state := modem_state w; refresh_context := refresh_context w;
     sources := sources w; next_source_id := next_source_id w;
     loads_in_flight := v;
     auth_in_flight := auth_in_flight w; trace := trace w |}.

Definition set_auth_in_flight (v : list HandleSetupContext) (w : World) : World :=
  {| iface := iface w; dbus_skeleton := dbus_skeleton w; exported := exported w;
     modem_state := modem_state w; refresh_context := refresh_context w;
     sources := sources w; next_source_id := next_source_id w;
     loads_in_flight := loads_in_flight w;
     auth_in_flight := v; trace := trace w |}.

Definition add_event (e : Event) (w : World) : World :=
  {| iface := iface w; dbus_skeleton := dbus_skeleton w; exported := exported w;
     modem_state := modem_state w; refresh_context := refresh_context w;
     sources := sources w; next_source_id := next_source_id w;
     loads_in_flight := loads_in_flight w;
     auth_in_flight := auth_in_flight w; trace := trace w ++ [e] |}.

(** Code run on the main loop: it reads and updates the world and yields a
    value, or has no defined outcome (a call through a [NULL] vtable entry). *)
Definition M (A : Type) : Type := World -> option (A * World).

Definition ret {A : Type} (a : A) : M A := fun w => Some (a, w).

Definition bind {A B : Type} (m : M A) (k : A -> M B) : M B :=
  fun w => match m w with
           | Some (a, w') => k a w'
           | None => None
           end.

Definition get : M World := fun w => Some (w, w).
Definition modify (f : World -> World) : M unit := fun w => Some (tt, f w).
Definition undefined {A : Type} : M A := fun _ => None.

Notation "x <- m ;; k" := (bind m (fun x => k))
  (at level 61, m at next level, right associativity).
Notation "m ;;; k" := (bind m (fun _ => k))
  (at level 61, right associativity).

Definition emit (e : Event) : M unit := modify (add_event e).
Definition mm_dbg (fmt : string) (args : list LogArg) : M unit :=
  emit (EvLog LogDebug fmt args).
Definition mm_warn (fmt : string) (args : list LogArg) : M unit :=
  emit (EvLog LogWarn fmt args).

(** [g_source_remove]: the source with that id leaves the main loop. *)
Definition g_source_remove (id : Z) : M unit :=
  emit (EvSourceRemove id) ;;;
  modify (fun w =>
    set_sources (filter (fun s => negb (Z.eqb (fst s) id)) (sources w))
                (next_source_id w) w).

(** [g_timeout_add_seconds]: a new source with a fresh id. *)
Definition g_timeout_add_seconds (interval : Z) : M Z :=
  w <- get ;;
  let id := next_source_id w in
  emit (EvTimeoutAdd id interval) ;;;
  modify (fun w => set_sources (sources w ++ [(id, interval)]) (id + 1) w) ;;;
  ret id.

Definition refresh_context_free (ctx : RefreshContext) : M unit :=
  if negb (Z.eqb (timeout_source ctx) 0)
  then g_source_remove (timeout_source ctx)
  else ret tt.

(** [g_object_set_qdata (self, refresh_context_quark, NULL)]: the stored
    context, if any, is removed and its destroy notify
    ([refresh_context_free]) runs. *)
Definition g_object_set_qdata_NULL : M unit :=
  w <- get ;;
  match refresh_context w with
  | Some ctx =>
      modify (set_refresh_context None) ;;; refresh_context_free ctx
  | None => ret tt
  end.

Definition clear_values : M unit :=
  w <- get ;;
  match dbus_skeleton w with
  | None => ret tt
  | Some skeleton =>
      modify (set_dbus_skeleton
                (Some (set_properties skeleton cleared_properties)))
  end.

Definition load_values_ready (res : result LoadedValues) : M unit :=
  w <- get ;;
  if negb (load_values_finish (iface w)) then undefined else
  match res with
  | Error error =>
      mm_warn "Couldn't load extended signal information: %s"
              [ArgString (error_message error)] ;;;
      clear_values
  | Ok values =>
      match dbus_skeleton w with
      | None =>
          mm_warn ("Cannot update extended signal information: "
                     ++ "Couldn't get interface skeleton")%string []
      | Some skeleton =>
          modify (set_dbus_skeleton
                    (Some (set_properties skeleton (loaded_properties values)))) ;;;
          emit EvFlush
      end
  end.

(** [refresh_context_cb]: one more backend load is started; the return value
    [TRUE] keeps the timeout source. *)
Definition refresh_context_cb : M bool :=
  w <- get ;;
  if negb (load_values (iface w)) then undefined else
  emit EvLoadValues ;;;
  modify (fun w => set_loads_in_flight (S (loads_in_flight w)) w) ;;;
  ret true.

Definition teardown_refresh_context : M unit :=
  mm_dbg "Extended signal information reporting disabled" [] ;;;
  clear_values ;;;
  g_object_set_qdata_NULL.

Definition setup_refresh_context (update_rate : bool) (new_rate : Z)
  : M (result unit) :=
  w <- get ;;
  match dbus_skeleton w with
  | None =>
      ret (Error (g_error_new MM_CORE_ERROR_FAILED
                              "Couldn't get interface skeleton"))
  | Some skeleton =>
      let modem_state := modem_state w in
      new_rate <-
        (if update_rate then
           modify (set_dbus_skeleton
                     (Some (mm_gdbus_modem_signal_set_rate skeleton new_rate))) ;;;
           ret new_rate
         else ret (mm_gdbus_modem_signal_get_rate skeleton)) ;;
      if Z.eqb new_rate 0 then
        mm_dbg "Extended signal information reporting disabled (rate: 0 seconds)" [] ;;;
        clear_values ;;;
        g_object_set_qdata_NULL ;;;
        ret (Ok tt)
      else if Z.ltb modem_state MM_MODEM_STATE_ENABLING then
        mm_dbg "Extended signal information reporting disabled (modem not yet enabled)" [] ;;;
        ret (Ok tt)
      else
        w <- get ;;
        ctx <-
          (match refresh_context w with
           | Some ctx => ret ctx
           | None =>
               let ctx := {| rate := 0; timeout_source := 0 |} in
               modify (set_refresh_context (Some ctx)) ;;; ret ctx
           end) ;;
        if Z.eqb (rate ctx) new_rate then ret (Ok tt)
        else
          mm_dbg "Extended signal information reporting enabled (rate: %u seconds)"
                 [ArgUint new_rate] ;;;
          modify (set_refresh_context
                    (Some {| rate := new_rate;
                             timeout_source := timeout_source ctx |})) ;;;
          (if negb (Z.eqb (timeout_source ctx) 0)
           then g_source_remove (timeout_source ctx)
           else ret tt) ;;;
          id <- g_timeout_add_seconds new_rate ;;
          modify (set_refresh_context
                    (Some {| rate := new_rate; timeout_source := id |})) ;;;
          refresh_context_cb ;;;
          ret (Ok tt)
  end.

(** [handle_setup]: the request is remembered and authorisation asked for;
    nothing else happens until the authorisation completes. *)
Definition handle_setup (inv : Z) (rate : Z) : M bool :=
  let ctx := {| invocation := inv; setup_rate := rate |} in
  modify (fun w => set_auth_in_flight (auth_in_flight w ++ [ctx]) w) ;;;
  emit (EvAuthorize inv MM_AUTHORIZATION_DEVICE_CONTROL) ;;;
  ret true.

Fixpoint remove_first (ctx : HandleSetupContext) (l : list HandleSetupContext)
  : list HandleSetupContext :=
  match l with
  | [] => []
  | c :: rest =>
      if handle_setup_context_eqb c ctx then rest
      else c :: remove_first ctx rest
  end.

Definition handle_setup_context_free (ctx : HandleSetupContext) : M unit :=
  modify (fun w => set_auth_in_flight (remove_first ctx (auth_in_flight w)) w).

(** [handle_setup_auth_ready]; [res] is what [mm_base_modem_authorize_finish]
    reports. *)
Definition handle_setup_auth_ready (res : result unit)
    (ctx : HandleSetupContext) : M unit :=
  match res with
  | Error error => emit (EvTakeError (invocation ctx) error)
  | Ok _ =>
      r <- setup_refresh_context true (setup_rate ctx) ;;
      match r with
      | Error error => emit (EvTakeError (invocation ctx) error)
      | Ok _ => emit (EvCompleteSetup (invocation ctx))
      end
  end ;;;
  handle_setup_context_free ctx.

(** The lifecycle entry points; the value is what the matching [_finish]
    reports once the result completes in idle. *)
Definition mm_iface_modem_signal_disable : M (result unit) :=
  teardown_refresh_context ;;; ret (Ok tt).

Definition mm_iface_modem_signal_enable : M (result unit) :=
  setup_refresh_context false 0.

Definition mm_iface_modem_signal_initialize : M (result unit) :=
  w <- get ;;
  let supported := load_values (iface w) && load_values_finish (iface w) in
  match dbus_skeleton w with
  | Some _ => ret tt
  | None =>
      let skeleton := mm_gdbus_modem_signal_skeleton_new in
      modify (set_dbus_skeleton (Some skeleton)) ;;;
      if supported then
        clear_values ;;;
        modify (fun w =>
          match dbus_skeleton w with
          | Some sk =>
              set_dbus_skeleton
                (Some {| prop_rate := prop_rate sk;
                         properties := properties sk;
                         handle_setup_connected := true |}) w
          | None => w
          end) ;;;
        modify (set_exported true)
      else ret tt
  end ;;;
  if supported then ret (Ok tt)
  else ret (Error (g_error_new MM_CORE_ERROR_UNSUPPORTED
                     "Extended signal information reporting not supported")).

Definition mm_iface_modem_signal_shutdown : M unit :=
  modify (set_exported false) ;;;
  modify (set_dbus_skeleton None).

(** *** The interface as a transition system

    What can happen to one object between two returns to the main loop: a
    lifecycle call, an inbound [Setup] on the exported skeleton, the
    completion of a pending authorisation, a tick of an armed timeout source, the
    completion of a pending backend load, or a change of the modem state by
    the owning device. *)
Inductive Label : Type :=
| LInitialize
| LEnable
| LDisable
| LShutdown
| LSetup (inv : Z) (rate : Z)
| LAuthReady (ctx : HandleSetupContext) (res : result unit)
| LTick (id : Z)
| LLoadReady (res : result LoadedValues)
| LModemState (st : Z).

Definition after {A : Type} (r : option (A * World)) : option World :=
  match r with
  | Some (_, w) => Some w
  | None => None
  end.

Definition source_armed (id : Z) (w : World) : bool :=
  existsb (fun s => Z.eqb (fst s) id) (sources w).

Definition step (l : Label) (w : World) : option World :=
  match l with
  | LInitialize => after (mm_iface_modem_signal_initialize w)
  | LEnable => after (mm_iface_modem_signal_enable w)
  | LDisable => after (mm_iface_modem_signal_disable w)
  | LShutdown => after (mm_iface_modem_signal_shutdown w)
  | LSetup inv rate =>
      match dbus_skeleton w with
      | Some skeleton =>
          if exported w && handle_setup_connected skeleton
          then after (handle_setup inv rate w)
          else None
      | None => None
      end
  | LAuthReady ctx res =>
      if existsb (handle_setup_context_eqb ctx) (auth_in_flight w)
      then after (handle_setup_auth_ready res ctx w)
      else None
  | LTick id =>
      if source_armed id w then
        match refresh_context_cb w with
        | Some (true, w') => Some w'
        | Some (false, w') => after (g_source_remove id w')
        | None => None
        end
      else None
  | LLoadReady res =>
      match loads_in_flight w with
      | O => None
      | S n => after (load_values_ready res (set_loads_in_flight n w))
      end
  | LModemState st => Some (set_modem_state st w)
  end.

Fixpoint run (ls : list Label) (w : World) : option World :=
  match ls with
  | [] => Some w
  | l :: rest =>
      match step l w with
      | Some w' => run rest w'
      | None => None
      end
  end.

(** The object as created: no skeleton, no refresh context, no timer. *)
Definition initial_world (vtable : MMIfaceModemSignal) (st : Z) : World :=
  {| iface := vtable; dbus_skeleton := None; exported := false;
     modem_state := st; refresh_context := None;
     sources := []; next_source_id := 1;
     loads_in_flight := O; auth_in_flight := []; trace := [] |}.

(** Backend loads started so far. *)
Fixpoint polls (tr : list Event) : nat :=
  match tr with
  | [] => O
  | EvLoadValues :: rest => S (polls rest)
  | _ :: rest => polls rest
  end.

(** Events that start a poll or touch a timeout source. *)
Definition is_scheduling_event (e : Event) : bool :=
  match e with
  | EvLoadValues | EvTimeoutAdd _ _ | EvSourceRemove _ => true
  | _ => false
  end.

(** A run of events none of which starts a poll or touches a timeout
    source. *)
Definition quiet (evs : list Event) : Prop :=
  forallb (fun e => negb (is_scheduling_event e)) evs = true.

(** Events that answer a bus caller. *)
Definition is_reply_event (e : Event) : bool :=
  match e with
  | EvTakeError _ _ | EvCompleteSetup _ => true
  | _ => false
  end.

(** The rate the procedure works with once it holds the skeleton: the one
    supplied, or the one published. *)
Definition effective_rate (update_rate : bool) (new_rate : Z) (w : World)
  : option Z :=
  match dbus_skeleton w with
  | Some skeleton =>
      Some (if update_rate then new_rate
            else mm_gdbus_modem_signal_get_rate skeleton)
  | None => None
  end.

(** Every measurement of the skeleton, if there is one, reads
    [(FALSE, 0.0)]. *)
Definition measurements_unavailable (w : World) : Prop :=
  forall skeleton, dbus_skeleton w = Some skeleton ->
                   properties skeleton = cleared_properties.

(** The timeout sources of the main loop are exactly the one the refresh
    context holds. *)
Definition timers_owned (w : World) : Prop :=
  0 < next_source_id w /\
  sources w = match refresh_context w with
              | Some ctx =>
                  if Z.eqb (timeout_source ctx) 0 then []
                  else [(timeout_source ctx, rate ctx)]
              | None => []
              end.

(** Below ENABLING and never started: no refresh context, no timeout
    source, no load pending or ever started. *)
Definition dormant (w : World) : Prop :=
  modem_state w < MM_MODEM_STATE_ENABLING
  /\ refresh_context w = None
  /\ sources w = []
  /\ loads_in_flight w = O
  /\ polls (trace w) = O.

(** No step taken while the modem state is below ENABLING starts a backend
    load, whatever happened before. *)
Definition never_polls_below_enabling : Prop :=
  forall vtable st ls w l w',
    run ls (initial_world vtable st) = Some w ->
    modem_state w < MM_MODEM_STATE_ENABLING ->
    step l w = Some w' ->
    polls (trace w') = polls (trace w).

(** The device never reports a state at or above ENABLING during [ls]. *)
Definition stays_below_enabling (ls : list Label) : Prop :=
  forall st, In (LModemState st) ls -> st < MM_MODEM_STATE_ENABLING.

(** Either nothing polls (no refresh context, no timeout source), or a
    refresh context with a nonzero rate holds the one timeout source of the
    main loop, armed at that rate. *)
Definition polling_state (w : World) : Prop :=
  (refresh_context w = None /\ sources w = [])
  \/ (exists r id,
        r <> 0 /\ id <> 0
        /\ refresh_context w = Some {| rate := r; timeout_source := id |}
        /\ sources w = [(id, r)]).

(** The backend provides both operations. *)
Definition supported (w : World) : bool :=
  load_values (iface w) && load_values_finish (iface w).

(** An object whose backend lacks an operation, as it stays: nothing
    exported, no handler connected, rate 0, nothing scheduled, no load ever
    started, no authorisation pending. *)
Definition unsupported_idle (w : World) : Prop :=
  supported w = false
  /\ exported w = false
  /\ (forall skeleton, dbus_skeleton w = Some skeleton ->
        mm_gdbus_modem_signal_get_rate skeleton = 0
        /\ handle_setup_connected skeleton = false)
  /\ refresh_context w = None
  /\ sources w = []
  /\ loads_in_flight w = O
  /\ auth_in_flight w = []
  /\ polls (trace w) = O.

(** The published rate, when there is a skeleton. *)
Definition published_rate (w : World) : option Z :=
  option_map mm_gdbus_modem_signal_get_rate (dbus_skeleton w).

(** The published measurements, when there is a skeleton. *)
Definition published_values (w : World) : option SignalProperties :=
  option_map properties (dbus_skeleton w).

Definition skeleton_missing : GError :=
  g_error_new MM_CORE_ERROR_FAILED "Couldn't get interface skeleton".

(** What a completed load leaves published: the loaded values, or every
    measurement unavailable after an error. *)
Definition outcome_values (res : result LoadedValues) : SignalProperties :=
  match res with
  | Ok values => loaded_properties values
  | Error _ => cleared_properties
  end.

(** Below ENABLING with nothing armed: no refresh context and no timeout
    source (loads started earlier may still be pending). *)
Definition unarmed (w : World) : Prop :=
  modem_state w < MM_MODEM_STATE_ENABLING
  /\ refresh_context w = None
  /\ sources w = [].

End Polling.

End IfaceModemSignal.

(** ** Concrete inputs

    Sample wire values for the codec, and sample states of the signal
    interface with MM_MODEM_STATE_ENABLING taken as 5 and the fastboot method
    as 1. *)

Definition fastboot_settings_wire : list (string * GVariant) :=
  [("fastboot-at", GV_string (utf8_text "AT^FASTBOOT"))].

Definition fastboot_wire_with_extra_key : list (string * GVariant) :=
  [("fastboot-at", GV_string (utf8_text "AT^FASTBOOT")); ("version", GV_string (utf8_text "1"))].

Definition version_only_wire : list (string * GVariant) :=
  [("version", GV_string (utf8_text "1"))].

Definition supported_vtable : IfaceModemSignal.MMIfaceModemSignal :=
  {| IfaceModemSignal.load_values := true;
     IfaceModemSignal.load_values_finish := true |}.

Definition exported_skeleton (rate : Z) : IfaceModemSignal.MmGdbusModemSignal :=
  {| IfaceModemSignal.prop_rate := rate;
     IfaceModemSignal.properties := IfaceModemSignal.cleared_properties;
     IfaceModemSignal.handle_setup_connected := true |}.

Definition setup_request (rate : Z) : IfaceModemSignal.HandleSetupContext :=
  {| IfaceModemSignal.invocation := 7; IfaceModemSignal.setup_rate := rate |}.

(** Initialised, then an authorised [Setup (rate)]. *)
Definition setup_at_rate (rate : Z) : list IfaceModemSignal.Label :=
  [IfaceModemSignal.LInitialize;
   IfaceModemSignal.LSetup 7 rate;
   IfaceModemSignal.LAuthReady (setup_request rate) (Ok tt)].

(** Where [setup_at_rate 5] leads when the modem is at state 5: polling every
    5 seconds on timeout source 1, the first load in flight. *)
Definition armed_world : IfaceModemSignal.World :=
  {| IfaceModemSignal.iface := supported_vtable;
     IfaceModemSignal.dbus_skeleton := Some (exported_skeleton 5);
     IfaceModemSignal.exported := true;
     IfaceModemSignal.modem_state := 5;
     IfaceModemSignal.refresh_context :=
       Some {| IfaceModemSignal.rate := 5;
               IfaceModemSignal.timeout_source := 1 |};
     IfaceModemSignal.sources := [(1, 5)];
     IfaceModemSignal.next_source_id := 2;
     IfaceModemSignal.loads_in_flight := 1;
     IfaceModemSignal.auth_in_flight := [];
     IfaceModemSignal.trace :=
       [IfaceModemSignal.EvAuthorize 7
          IfaceModemSignal.MM_AUTHORIZATION_DEVICE_CONTROL;
        IfaceModemSignal.EvLog IfaceModemSignal.LogDebug
          "Extended signal information reporting enabled (rate: %u seconds)"
          [IfaceModemSignal.ArgUint 5];
        IfaceModemSignal.EvTimeoutAdd 1 5;
        IfaceModemSignal.EvLoadValues;
        IfaceModemSignal.EvCompleteSetup 7] |}.

(** The same object after the device dropped to state 3 without disabling
    the interface, and after the next tick of source 1. *)
Definition armed_world_below : IfaceModemSignal.World :=
  IfaceModemSignal.set_modem_state 3 armed_world.

Definition armed_world_below_ticked : IfaceModemSignal.World :=
  IfaceModemSignal.set_loads_in_flight 2
    (IfaceModemSignal.add_event IfaceModemSignal.EvLoadValues armed_world_below).

(** [armed_world] after [disable] and a drop of the device to state 3: the
    timer is gone, the load started earlier is still pending. *)
Definition disabled_world_below : IfaceModemSignal.World :=
  IfaceModemSignal.set_modem_state 3
    (IfaceModemSignal.set_sources [] 2
       (IfaceModemSignal.add_event (IfaceModemSignal.EvSourceRemove 1)
          (IfaceModemSignal.set_refresh_context None
             (IfaceModemSignal.add_event
                (IfaceModemSignal.EvLog IfaceModemSignal.LogDebug
                   "Extended signal information reporting disabled" [])
                armed_world)))).

(** What then happens below ENABLING: the pending load fails, the interface
    is enabled again, and an authorised [Setup (10)] is followed by another
    [enable]. *)
Definition below_enabling_activity : list IfaceModemSignal.Label :=
  [IfaceModemSignal.LLoadReady
     (Error (g_error_new (G_ERROR_FOREIGN "mm-mobile-equipment-error-quark" 100)
               "Unknown error"));
   IfaceModemSignal.LEnable;
   IfaceModemSignal.LSetup 7 10;
   IfaceModemSignal.LAuthReady (setup_request 10) (Ok tt);
   IfaceModemSignal.LModemState 4;
   IfaceModemSignal.LEnable].

(** Initialised at state 3, nothing enabled. *)
Definition idle_world_below : IfaceModemSignal.World :=
  {| IfaceModemSignal.iface := supported_vtable;
     IfaceModemSignal.dbus_skeleton := Some (exported_skeleton 0);
     IfaceModemSignal.exported := true;
     IfaceModemSignal.modem_state := 3;
     IfaceModemSignal.refresh_context := None;
     IfaceModemSignal.sources := [];
     IfaceModemSignal.next_source_id := 1;
     IfaceModemSignal.loads_in_flight := O;
     IfaceModemSignal.auth_in_flight := [];
     IfaceModemSignal.trace := [] |}.

Definition backend_error : GError :=
  g_error_new (G_ERROR_FOREIGN "mm-mobile-equipment-error-quark" 100) "Unknown error".

(** A backend with [load_values] but without [load_values_finish], and
    where the object is after [initialize] and [enable] at state 6. *)
Definition unsupported_vtable : IfaceModemSignal.MMIfaceModemSignal :=
  {| IfaceModemSignal.load_values := true;
     IfaceModemSignal.load_values_finish := false |}.

Definition unsupported_world : IfaceModemSignal.World :=
  {| IfaceModemSignal.iface := unsupported_vtable;
     IfaceModemSignal.dbus_skeleton :=
       Some {| IfaceModemSignal.prop_rate := 0;
               IfaceModemSignal.properties :=
                 IfaceModemSignal.cleared_properties;
               IfaceModemSignal.handle_setup_connected := false |};
     IfaceModemSignal.exported := false;
     IfaceModemSignal.modem_state := 6;
     IfaceModemSignal.refresh_context := None;
     IfaceModemSignal.sources := [];
     IfaceModemSignal.next_source_id := 1;
     IfaceModemSignal.loads_in_flight := O;
     IfaceModemSignal.auth_in_flight := [];
     IfaceModemSignal.trace :=
       [IfaceModemSignal.EvLog IfaceModemSignal.LogDebug
          "Extended signal information reporting disabled (rate: 0 seconds)"
          []] |}.

(** A load that found CDMA at -80 dBm and nothing else. *)
Definition cdma_only_values : IfaceModemSignal.LoadedValues :=
  {| IfaceModemSignal.cdma_available := true;
     IfaceModemSignal.cdma_rssi := (-80)%float;
     IfaceModemSignal.cdma_ecio := (-6)%float;
     IfaceModemSignal.evdo_available := false;
     IfaceModemSignal.evdo_rssi := 0%float;
     IfaceModemSignal.evdo_ecio := 0%float;
     IfaceModemSignal.evdo_sinr := 0%float;
     IfaceModemSignal.evdo_io := 0%float;
     IfaceModemSignal.gsm_available := false;
     IfaceModemSignal.gsm_rssi := 0%float;
     IfaceModemSignal.umts_available := false;
     IfaceModemSignal.umts_rssi := 0%float;
     IfaceModemSignal.umts_ecio := 0%float;
     IfaceModemSignal.lte_available := false;
     IfaceModemSignal.lte_rssi := 0%float;
     IfaceModemSignal.lte_rsrq := 0%float;
     IfaceModemSignal.lte_rsrp := 0%float;
     IfaceModemSignal.lte_snr := 0%float |}.

Definition fastboot_settings : FirmwareUpdateSettings.MMFirmwareUpdateSettings :=
  {| FirmwareUpdateSettings.method := 1;
     FirmwareUpdateSettings.fastboot_at := Some "AT^FASTBOOT" |}.

(** A fastboot settings whose command, the single byte 0xFF, is not
    UTF-8. *)
Definition fastboot_settings_not_utf8
  : FirmwareUpdateSettings.MMFirmwareUpdateSettings :=
  {| FirmwareUpdateSettings.method := 1;
     FirmwareUpdateSettings.fastboot_at :=
       Some (String (ascii_of_N 255) EmptyString) |}.

Definition fastboot_wire_repeated : list (string * GVariant) :=
  [("fastboot-at", GV_string (utf8_text "AT^OLD")); ("fastboot-at", GV_string (utf8_text "AT^FASTBOOT"))].

(** * Properties *)

(** ** The settings codec *)

Section SettingsCodec.

Import FirmwareUpdateSettings.

Variable FASTBOOT : Z.

Local Abbreviation get_variant := (mm_firmware_update_settings_get_variant FASTBOOT).
Local Abbreviation new_from_variant :=
  (mm_firmware_update_settings_new_from_variant FASTBOOT).
Local Abbreviation wire m dictionary :=
  (Some (GV_tuple [GV_uint32 m; GV_vardict dictionary])).

Lemma is_of_type_ua_sv (v : GVariant) :
  g_variant_is_of_type v G_VARIANT_TYPE_ua_sv = true <->
  exists n entries, v = GV_tuple [GV_uint32 n; GV_vardict entries].
Proof.
  split.
  - unfold g_variant_is_of_type, G_VARIANT_TYPE_ua_sv.
    destruct v as [b|n|d|s|es|items]; simpl; try discriminate.
    destruct items as [|x [|y [|z rest]]]; simpl; try discriminate.
    + destruct (g_variant_get_type x); discriminate.
    + destruct x; simpl; try discriminate.
      destruct y; simpl; try discriminate. intros _. eauto.
    + destruct (g_variant_get_type x); simpl; try discriminate.
      destruct (g_variant_get_type y); simpl; discriminate.
  - intros (n & entries & ->). reflexivity.
Qed.

(** Once an error is set the loop consumes nothing more. *)
Lemma consume_entries_stops self e iter :
  consume_entries self (Some e) iter = (self, Some e, []).
Proof. destruct iter; reflexivity. Qed.

(** A dictionary with a key other than "fastboot-at" stops the loop at the
    first such key, with the error that names it. *)
Lemma consume_entries_unknown_key dictionary :
  ~ all_fastboot_at dictionary ->
  forall self, exists self' key evs,
    consume_entries self None dictionary = (self', Some (unexpected_key key), evs)
    /\ key <> PROPERTY_FASTBOOT_AT /\ In key (map fst dictionary).
Proof.
  induction dictionary as [|[k v] rest IH]; intros Hbad self.
  - exfalso. apply Hbad. intros key value [].
  - cbn [consume_entries]. unfold consume_variant.
    destruct (String.eqb_spec k PROPERTY_FASTBOOT_AT) as [->|Hk].
    + destruct (IH) with (self := {| method := method self;
                                     fastboot_at := g_variant_dup_string v |})
        as (self' & key & evs & Heq & Hkey & Hin).
      * intros Hall. apply Hbad. intros key value [Heq|Hin].
        -- now inversion Heq.
        -- eapply Hall; eauto.
      * rewrite Heq. exists self', key, (EvConsume PROPERTY_FASTBOOT_AT :: evs).
        repeat split; auto. now right.
    + rewrite consume_entries_stops.
      exists self, k, [EvConsume k]. repeat split; auto. now left.
Qed.

(** A dictionary made of "fastboot-at" entries only is consumed to its end
    without error, and the method is left alone. *)
Lemma consume_entries_known_keys dictionary :
  all_fastboot_at dictionary ->
  forall self, exists self',
    consume_entries self None dictionary
    = (self', None, map (fun e => EvConsume (fst e)) dictionary)
    /\ method self' = method self.
Proof.
  induction dictionary as [|[k v] rest IH]; intros Hall self.
  - exists self. now split.
  - cbn [consume_entries]. unfold consume_variant.
    rewrite (Hall k v (or_introl eq_refl)). rewrite String.eqb_refl.
    destruct IH with (self := {| method := method self;
                                 fastboot_at := g_variant_dup_string v |})
      as (self' & Heq & Hm).
    + intros key value Hin. eapply Hall. right. exact Hin.
    + rewrite Heq. exists self'. now split.
Qed.

(** ... and when its last entry is a string, that string is the field. *)
Lemma consume_entries_last_string prefix s :
  all_fastboot_at prefix ->
  forall self,
    consume_entries self None (prefix ++ [(PROPERTY_FASTBOOT_AT, GV_string s)])
    = ({| method := method self; fastboot_at := Some (utf8_bytes s) |}, None,
       map (fun e => EvConsume (fst e))
           (prefix ++ [(PROPERTY_FASTBOOT_AT, GV_string s)])).
Proof.
  induction prefix as [|[k v] rest IH]; intros Hall self.
  - reflexivity.
  - cbn [consume_entries app]. unfold consume_variant.
    rewrite (Hall k v (or_introl eq_refl)). rewrite String.eqb_refl.
    rewrite IH.
    + reflexivity.
    + intros key value Hin. eapply Hall. right. exact Hin.
Qed.

(** Two texts with the same bytes are the same text. *)
Lemma utf8_bytes_inj (a b : utf8) : utf8_bytes a = utf8_bytes b -> a = b.
Proof.
  destruct a as [sa Ha], b as [sb Hb]. cbn. intros ->.
  f_equal. apply UIP_dec. apply Bool.bool_dec.
Qed.

(** A text can always be boxed, and comes out as itself. *)
Lemma g_variant_new_string_text (cmd : utf8) :
  g_variant_new_string (Some (utf8_bytes cmd)) = Some (GV_string cmd).
Proof.
  unfold g_variant_new_string.
  destruct (g_utf8_validate_dec (utf8_bytes cmd)) as [valid|invalid].
  - do 2 f_equal. now apply utf8_bytes_inj.
  - rewrite (utf8_valid cmd) in invalid. discriminate invalid.
Qed.

(** What cannot be boxed is [NULL] or not valid UTF-8. *)
Lemma g_variant_new_string_none (str : option string) :
  g_variant_new_string str = None <->
  (forall cmd, str = Some cmd -> g_utf8_validate cmd = false).
Proof.
  unfold g_variant_new_string. destruct str as [cmd|].
  - destruct (g_utf8_validate_dec cmd) as [valid|invalid]; split.
    + discriminate.
    + intros H. pose proof (H cmd eq_refl) as Hf. congruence.
    + intros _ c Hc. now injection Hc as <-.
    + reflexivity.
  - split; [intros _ c Hc; discriminate Hc|reflexivity].
Qed.

(** The encoder on a fastboot settings: the dictionary holds the command
    when it can be boxed and is empty otherwise. *)
Lemma get_variant_fastboot (at_cmd : option string) :
  get_variant (Some {| method := FASTBOOT; fastboot_at := at_cmd |})
  = wire FASTBOOT
      match g_variant_new_string at_cmd with
      | Some v => [(PROPERTY_FASTBOOT_AT, v)]
      | None => []
      end.
Proof.
  unfold mm_firmware_update_settings_get_variant. cbn.
  rewrite Z.eqb_refl. cbn.
  destruct (g_variant_new_string at_cmd); reflexivity.
Qed.

(** Decoding what the fastboot case of the encoder produces for a command
    that is valid UTF-8 gives the settings back. *)
Lemma roundtrip_fastboot (cmd : utf8) :
  decode FASTBOOT
    (get_variant
       (Some {| method := FASTBOOT; fastboot_at := Some (utf8_bytes cmd) |}))
  = Ok {| method := FASTBOOT; fastboot_at := Some (utf8_bytes cmd) |}.
Proof.
  rewrite get_variant_fastboot, g_variant_new_string_text.
  unfold decode, mm_firmware_update_settings_new_from_variant.
  cbn. rewrite Z.eqb_refl. reflexivity.
Qed.

(** C1 (as the code has it).  For settings of any method other than
    fastboot, the encoder adds the discriminant to a builder for [(ua{sv})]
    and ends it without ever opening the dictionary, so no variant is
    produced; decoding that absent value fails with "No input given" instead
    of giving the settings back. *)
Theorem get_variant_without_dictionary (s : MMFirmwareUpdateSettings) :
  method s <> FASTBOOT ->
  get_variant (Some s) = None /\
  decode FASTBOOT (get_variant (Some s)) = Error (invalid_args "No input given").
Proof.
  intros Hm.
  assert (H : get_variant (Some s) = None).
  { unfold mm_firmware_update_settings_get_variant.
    apply Z.eqb_neq in Hm. rewrite Hm. reflexivity. }
  split; [exact H|]. rewrite H. reflexivity.
Qed.

(** C7.  A [NULL] variant, or one that is not a pair of a uint32 and an
    [a{sv}] dictionary, is refused with MM_CORE_ERROR_INVALID_ARGS, and
    nothing was done before that: no settings object was constructed and no
    dictionary entry was consumed. *)
Theorem new_from_variant_rejects_outer_shape (variant : option GVariant) :
  (variant = None \/
   exists v, variant = Some v /\
             forall n entries, v <> GV_tuple [GV_uint32 n; GV_vardict entries]) ->
  exists msg, new_from_variant variant = (Error (invalid_args msg), []).
Proof.
  intros [->|(v & -> & Hshape)].
  - exists "No input given". reflexivity.
  - exists "Invalid input type".
    unfold mm_firmware_update_settings_new_from_variant.
    destruct (g_variant_is_of_type v G_VARIANT_TYPE_ua_sv) eqn:Hty.
    + apply is_of_type_ua_sv in Hty. destruct Hty as (n & entries & ->).
      now destruct (Hshape n entries).
    + reflexivity.
Qed.

(** C8.  Whatever the discriminant, a dictionary with a key other than
    "fastboot-at" makes decoding fail with MM_CORE_ERROR_INVALID_ARGS: the
    error names such a key, the object under construction is dropped and none
    is returned. *)
Theorem new_from_variant_unknown_key (m : Z)
    (dictionary : list (string * GVariant)) :
  (exists key value, In (key, value) dictionary /\ key <> PROPERTY_FASTBOOT_AT) ->
  exists key evs,
    new_from_variant (wire m dictionary)
    = (Error (unexpected_key key), EvObjectNew m :: evs ++ [EvObjectUnref])
    /\ key <> PROPERTY_FASTBOOT_AT /\ In key (map fst dictionary)
    /\ error_code (unexpected_key key) = MM_CORE_ERROR_INVALID_ARGS.
Proof.
  intros (key & value & Hin & Hkey).
  assert (Hbad : ~ all_fastboot_at dictionary).
  { intros Hall. apply Hkey. eapply Hall. exact Hin. }
  destruct (consume_entries_unknown_key dictionary Hbad
              (mm_firmware_update_settings_new m))
    as (self' & k & evs & Heq & Hk & Hink).
  exists k, evs.
  unfold mm_firmware_update_settings_new_from_variant. cbn.
  rewrite Heq. repeat split; auto.
Qed.

(** With the fastboot method, a dictionary in which no entry has the key
    "fastboot-at" is always refused with MM_CORE_ERROR_INVALID_ARGS. *)
Lemma new_from_variant_fastboot_missing (dictionary : list (string * GVariant)) :
  (forall value, ~ In (PROPERTY_FASTBOOT_AT, value) dictionary) ->
  exists e, decode FASTBOOT (wire FASTBOOT dictionary) = Error e
            /\ error_code e = MM_CORE_ERROR_INVALID_ARGS.
Proof.
  intros Hno. destruct dictionary as [|[k v] rest].
  - exists fastboot_at_required. unfold decode. cbn.
    rewrite Z.eqb_refl. now split.
  - destruct (consume_entries_unknown_key ((k, v) :: rest)) with
      (self := mm_firmware_update_settings_new FASTBOOT)
      as (self' & key & evs & Heq & _ & _).
    + intros Hall. apply (Hno v). rewrite <- (Hall k v); now left.
    + exists (unexpected_key key). split; [|reflexivity].
      unfold decode, mm_firmware_update_settings_new_from_variant.
      cbn [g_variant_is_of_type g_variant_get_type map G_VARIANT_TYPE_ua_sv
           g_variant_type_equal andb negb].
      rewrite Heq. reflexivity.
Qed.

(** C9 (amended).  With the fastboot method and a dictionary that has no key
    other than "fastboot-at": an empty dictionary is refused with
    MM_CORE_ERROR_INVALID_ARGS and the message that names the missing
    'fastboot-at' setting; a dictionary whose last entry holds a string
    decodes to settings whose fastboot-at field is that string. *)
Theorem new_from_variant_fastboot (dictionary : list (string * GVariant)) :
  all_fastboot_at dictionary ->
  (dictionary = [] ->
   decode FASTBOOT (wire FASTBOOT dictionary) = Error fastboot_at_required) /\
  (forall prefix cmd,
     dictionary = prefix ++ [(PROPERTY_FASTBOOT_AT, GV_string cmd)] ->
     decode FASTBOOT (wire FASTBOOT dictionary)
     = Ok {| method := FASTBOOT; fastboot_at := Some (utf8_bytes cmd) |}).
Proof.
  intros Hall. split.
  - intros ->. unfold decode. cbn. rewrite Z.eqb_refl. reflexivity.
  - intros prefix cmd ->.
    assert (Hpre : all_fastboot_at prefix).
    { intros key value Hin. eapply Hall. apply in_or_app. left. exact Hin. }
    unfold decode, mm_firmware_update_settings_new_from_variant.
    cbn [g_variant_is_of_type g_variant_get_type map G_VARIANT_TYPE_ua_sv
         g_variant_type_equal andb negb].
    rewrite (consume_entries_last_string prefix cmd Hpre).
    cbn. rewrite Z.eqb_refl. reflexivity.
Qed.

(** C10.  For a discriminant other than fastboot, in or out of the enum, the
    input with an empty dictionary decodes to settings with that method and
    no fastboot-at; one object is constructed and none dropped.  No field is
    required of such a method: any dictionary of "fastboot-at" entries
    decodes too, whatever the entries hold. *)
Theorem new_from_variant_other_method (d : Z) :
  d <> FASTBOOT ->
  new_from_variant (wire d [])
  = (Ok {| method := d; fastboot_at := None |}, [EvObjectNew d]) /\
  (forall dictionary, all_fastboot_at dictionary ->
     exists self, decode FASTBOOT (wire d dictionary) = Ok self
                  /\ method self = d).
Proof.
  intros Hd. apply Z.eqb_neq in Hd. split.
  - unfold mm_firmware_update_settings_new_from_variant. cbn.
    rewrite Hd. reflexivity.
  - intros dictionary Hall.
    destruct (consume_entries_known_keys dictionary Hall
                (mm_firmware_update_settings_new d)) as (self' & Heq & Hm).
    exists self'. split; [|exact Hm].
    unfold decode, mm_firmware_update_settings_new_from_variant. cbn.
    rewrite Heq, Hd. reflexivity.
Qed.

(** *** Further properties of the codec *)

(** Consuming a dictionary of "fastboot-at" entries: the field ends as the
    last entry leaves it. *)
Lemma consume_entries_fold dictionary :
  all_fastboot_at dictionary ->
  forall self,
    consume_entries self None dictionary
    = ({| method := method self;
          fastboot_at := consumed_fastboot_at (fastboot_at self) dictionary |},
       None, map (fun e => EvConsume (fst e)) dictionary).
Proof.
  induction dictionary as [|[k v] rest IH]; intros Hall self.
  - destruct self. reflexivity.
  - cbn [consume_entries]. unfold consume_variant.
    rewrite (Hall k v (or_introl eq_refl)). rewrite String.eqb_refl.
    rewrite IH.
    + reflexivity.
    + intros key value Hin. eapply Hall. right. exact Hin.
Qed.

(** The loop ends without error only on a dictionary of "fastboot-at"
    entries. *)
Lemma consume_entries_ok dictionary :
  forall self self' evs,
    consume_entries self None dictionary = (self', None, evs) ->
    all_fastboot_at dictionary.
Proof.
  induction dictionary as [|[k v] rest IH]; intros self self' evs H.
  - intros key value [].
  - cbn [consume_entries] in H. unfold consume_variant in H.
    destruct (String.eqb_spec k PROPERTY_FASTBOOT_AT) as [->|Hk].
    + destruct (consume_entries _ None rest) as [[s1 e1] evs1] eqn:Hrest.
      injection H as -> -> <-.
      intros key value [Heq|Hin].
      * now inversion Heq.
      * eapply IH; eauto.
    + rewrite consume_entries_stops in H. discriminate H.
Qed.

(** Whatever stops the loop is the error for an unexpected key. *)
Lemma consume_entries_error dictionary :
  forall self self' e evs,
    consume_entries self None dictionary = (self', Some e, evs) ->
    exists key, e = unexpected_key key /\ key <> PROPERTY_FASTBOOT_AT.
Proof.
  induction dictionary as [|[k v] rest IH]; intros self self' e evs H.
  - discriminate H.
  - cbn [consume_entries] in H. unfold consume_variant in H.
    destruct (String.eqb_spec k PROPERTY_FASTBOOT_AT) as [->|Hk].
    + destruct (consume_entries _ None rest) as [[s1 e1] evs1] eqn:Hrest.
      injection H as -> -> <-. eapply IH; eauto.
    + rewrite consume_entries_stops in H. injection H as _ <- _.
      exists k. now split.
Qed.

(** The loop constructs and drops no object. *)
Lemma consume_entries_events dictionary :
  forall self err self' err' evs,
    consume_entries self err dictionary = (self', err', evs) ->
    filter is_object_new evs = [] /\ filter is_object_unref evs = [].
Proof.
  induction dictionary as [|[k v] rest IH]; intros self err self' err' evs H.
  - destruct err; injection H as _ _ <-; now split.
  - destruct err as [e|].
    + injection H as _ _ <-; now split.
    + cbn [consume_entries] in H.
      destruct (consume_variant self k v) as [s1 e1].
      destruct (consume_entries s1 e1 rest) as [[s2 e2] evs2] eqn:Hrest.
      injection H as _ _ <-. cbn. eapply IH; eauto.
Qed.

Lemma decode_wire m dictionary :
  new_from_variant (wire m dictionary)
  = let '(self, inner_error, consumed) :=
      consume_entries (mm_firmware_update_settings_new m) None dictionary in
    let inner_error :=
      match inner_error with
      | Some e => Some e
      | None =>
          if Z.eqb m FASTBOOT then
            match fastboot_at self with
            | None => Some fastboot_at_required
            | Some _ => None
            end
          else None
      end in
    match inner_error with
    | Some e => (Error e, EvObjectNew m :: consumed ++ [EvObjectUnref])
    | None => (Ok self, EvObjectNew m :: consumed)
    end.
Proof. reflexivity. Qed.

(** What a successful decode tells about its input and its result. *)
Lemma decode_ok_inv (variant : option GVariant)
    (s : MMFirmwareUpdateSettings) :
  decode FASTBOOT variant = Ok s ->
  exists m dictionary,
    variant = wire m dictionary
    /\ all_fastboot_at dictionary
    /\ method s = m
    /\ fastboot_at s = consumed_fastboot_at None dictionary
    /\ valid_settings FASTBOOT s.
Proof.
  unfold decode. intros H.
  destruct variant as [v|]; [|discriminate H].
  destruct (g_variant_is_of_type v G_VARIANT_TYPE_ua_sv) eqn:Hty.
  - apply is_of_type_ua_sv in Hty. destruct Hty as (m & dictionary & ->).
    exists m, dictionary. rewrite decode_wire in H.
    destruct (consume_entries _ None dictionary) as [[self err] evs] eqn:Hc.
    destruct err as [e|]; [discriminate H|].
    pose proof (consume_entries_ok _ _ _ _ Hc) as Hall.
    rewrite (consume_entries_fold dictionary Hall) in Hc.
    injection Hc as <- _. cbn in H. unfold valid_settings.
    destruct (Z.eqb m FASTBOOT) eqn:Hm.
    + destruct (consumed_fastboot_at None dictionary) as [cmd|] eqn:Hcmd;
        [|discriminate H].
      injection H as <-. cbn. repeat split; auto. discriminate.
    + injection H as <-. cbn. repeat split; auto.
      intros ->. now rewrite Z.eqb_refl in Hm.
  - unfold mm_firmware_update_settings_new_from_variant in H.
    rewrite Hty in H. discriminate H.
Qed.

(** X3.  Whatever the decoder returns is built from a well-shaped value
    whose dictionary holds "fastboot-at" entries only; the object carries the
    discriminant of that value and has its required field: a decoded fastboot
    settings always has an AT command. *)
Theorem decoded_settings_valid (variant : option GVariant)
    (s : MMFirmwareUpdateSettings) :
  decode FASTBOOT variant = Ok s ->
  exists m dictionary,
    variant = wire m dictionary
    /\ all_fastboot_at dictionary
    /\ method s = m
    /\ fastboot_at s = consumed_fastboot_at None dictionary
    /\ valid_settings FASTBOOT s.
Proof. exact (decode_ok_inv variant s). Qed.

(** X4.  Every error of the decoder is MM_CORE_ERROR_INVALID_ARGS. *)
Theorem decode_error_invalid_args (variant : option GVariant) (e : GError) :
  decode FASTBOOT variant = Error e ->
  error_code e = MM_CORE_ERROR_INVALID_ARGS.
Proof.
  unfold decode. intros H.
  destruct variant as [v|]; [|now injection H as <-].
  destruct (g_variant_is_of_type v G_VARIANT_TYPE_ua_sv) eqn:Hty.
  - apply is_of_type_ua_sv in Hty. destruct Hty as (m & dictionary & ->).
    rewrite decode_wire in H.
    destruct (consume_entries _ None dictionary) as [[self err] evs] eqn:Hc.
    destruct err as [e'|].
    + injection H as <-.
      destruct (consume_entries_error _ _ _ _ _ Hc) as (key & -> & _).
      reflexivity.
    + destruct (Z.eqb m FASTBOOT); [|discriminate H].
      destruct (fastboot_at self); [discriminate H|].
      now injection H as <-.
  - unfold mm_firmware_update_settings_new_from_variant in H.
    rewrite Hty in H. now injection H as <-.
Qed.

(** Decoding the two dictionaries the fastboot case of the encoder can
    produce. *)
Lemma decode_fastboot_entry (cmd : utf8) :
  decode FASTBOOT (wire FASTBOOT [(PROPERTY_FASTBOOT_AT, GV_string cmd)])
  = Ok {| method := FASTBOOT; fastboot_at := Some (utf8_bytes cmd) |}.
Proof.
  unfold decode. rewrite decode_wire. cbn. rewrite Z.eqb_refl. reflexivity.
Qed.

Lemma decode_fastboot_empty :
  decode FASTBOOT (wire FASTBOOT []) = Error fastboot_at_required.
Proof.
  unfold decode. rewrite decode_wire. cbn. rewrite Z.eqb_refl. reflexivity.
Qed.

(** X1.  Encoding a settings object and decoding the result gives the
    object back exactly when it is a fastboot settings whose AT command is set
    and is valid UTF-8.  A fastboot settings whose command is [NULL] or not
    valid UTF-8 is encoded with an empty dictionary, which the decoder refuses
    for its missing 'fastboot-at' setting. *)
Theorem encode_decode_roundtrip (s : MMFirmwareUpdateSettings) :
  (decode FASTBOOT (get_variant (Some s)) = Ok s <->
   method s = FASTBOOT
   /\ exists cmd, fastboot_at s = Some cmd /\ g_utf8_validate cmd = true)
  /\ (method s = FASTBOOT ->
      g_variant_new_string (fastboot_at s) = None ->
      get_variant (Some s) = wire FASTBOOT []
      /\ decode FASTBOOT (get_variant (Some s)) = Error fastboot_at_required).
Proof.
  destruct s as [m at_cmd]. cbn [method fastboot_at].
  destruct (Z.eqb_spec m FASTBOOT) as [->|Hm].
  - rewrite get_variant_fastboot.
    destruct (g_variant_new_string at_cmd) as [v|] eqn:Hnew.
    + unfold g_variant_new_string in Hnew.
      destruct at_cmd as [cmd|]; [|discriminate Hnew].
      destruct (g_utf8_validate_dec cmd) as [valid|invalid];
        [|discriminate Hnew].
      injection Hnew as <-.
      rewrite (decode_fastboot_entry (mk_utf8 cmd valid)). cbn.
      split; [|intros _ H; discriminate H].
      split; [intros _|reflexivity].
      split; [reflexivity|]. exists cmd. now split.
    + rewrite decode_fastboot_empty. split.
      * split; [discriminate|].
        intros (_ & cmd & -> & valid).
        apply g_variant_new_string_none with (cmd := cmd) in Hnew;
          [congruence|reflexivity].
      * intros _ _. now split.
  - assert (Hnone : get_variant (Some {| method := m; fastboot_at := at_cmd |})
                    = None).
    { unfold mm_firmware_update_settings_get_variant. cbn.
      apply Z.eqb_neq in Hm. rewrite Hm. reflexivity. }
    rewrite Hnone. split.
    + split; [discriminate|]. intros (H & _). contradiction.
    + intros H. contradiction.
Qed.

(** Whatever a dictionary leaves in the field came out of a string variant,
    and so is a text. *)
Lemma consumed_fastboot_at_text dictionary :
  forall init str,
    consumed_fastboot_at init dictionary = Some str ->
    init = Some str \/ exists cmd : utf8, str = utf8_bytes cmd.
Proof.
  unfold consumed_fastboot_at.
  induction dictionary as [|[k v] rest IH]; intros init str H; cbn in H.
  - now left.
  - right. destruct (IH _ _ H) as [Hv|Hex]; [|exact Hex].
    destruct v; try discriminate Hv. injection Hv as <-. eauto.
Qed.

(** X2.  Encoding what was decoded from a fastboot value gives the value
    in normal form: the discriminant and a dictionary with the single entry
    "fastboot-at", holding the command the decoder kept. *)
Theorem decode_encode_normal_form (dictionary : list (string * GVariant))
    (s : MMFirmwareUpdateSettings) :
  decode FASTBOOT (wire FASTBOOT dictionary) = Ok s ->
  exists cmd,
    consumed_fastboot_at None dictionary = Some (utf8_bytes cmd)
    /\ get_variant (Some s)
       = wire FASTBOOT [(PROPERTY_FASTBOOT_AT, GV_string cmd)].
Proof.
  intros H.
  destruct (decode_ok_inv _ _ H)
    as (m & d & Hw & _ & Hm & Hat & Hvalid).
  injection Hw as <- <-.
  destruct s as [m' [str|]]; cbn in Hm, Hat; subst m'.
  - symmetry in Hat.
    destruct (consumed_fastboot_at_text _ _ _ Hat) as [Hnone|(cmd & ->)];
      [discriminate Hnone|].
    exists cmd. split; [exact Hat|].
    rewrite get_variant_fastboot, g_variant_new_string_text. reflexivity.
  - now destruct (Hvalid eq_refl).
Qed.

(** X5.  The decoder constructs at most one object; it hands it to the
    caller on success and drops it on error, so no object is left behind by a
    failed call and none is dropped by a successful one. *)
Theorem decode_object_lifecycle (variant : option GVariant) :
  (objects_constructed (snd (new_from_variant variant)) <= 1)%nat /\
  match fst (new_from_variant variant) with
  | Ok _ =>
      objects_constructed (snd (new_from_variant variant)) = 1%nat
      /\ objects_dropped (snd (new_from_variant variant)) = 0%nat
  | Error _ =>
      objects_dropped (snd (new_from_variant variant))
      = objects_constructed (snd (new_from_variant variant))
  end.
Proof.
  destruct variant as [v|]; [|cbn; split; [lia|reflexivity]].
  destruct (g_variant_is_of_type v G_VARIANT_TYPE_ua_sv) eqn:Hty.
  - apply is_of_type_ua_sv in Hty. destruct Hty as (m & dictionary & ->).
    rewrite decode_wire.
    destruct (consume_entries _ None dictionary) as [[self err] evs] eqn:Hc.
    destruct (consume_entries_events _ _ _ _ _ _ Hc) as (Hnew & Hunref).
    unfold objects_constructed, objects_dropped.
    destruct err as [e|];
      [|destruct (Z.eqb m FASTBOOT); [destruct (fastboot_at self)|]].
    all: cbn; rewrite ?filter_app, ?Hnew, ?Hunref; cbn; lia.
  - unfold mm_firmware_update_settings_new_from_variant. rewrite Hty. cbn.
    split; [lia|reflexivity].
Qed.

(** X6.  Decoding stops at the first key other than "fastboot-at": the
    entries before it are consumed, that entry is the last one looked at, the
    entries after it are never consumed, the error names that key and the
    object is dropped. *)
Theorem decode_stops_at_unknown_key (m : Z)
    (before after : list (string * GVariant)) (key : string)
    (value : GVariant) :
  all_fastboot_at before ->
  key <> PROPERTY_FASTBOOT_AT ->
  new_from_variant (wire m (before ++ (key, value) :: after))
  = (Error (unexpected_key key),
     EvObjectNew m
       :: map (fun e => EvConsume (fst e)) before
       ++ [EvConsume key; EvObjectUnref]).
Proof.
  intros Hall Hkey. rewrite decode_wire.
  assert (H : forall self,
             consume_entries self None (before ++ (key, value) :: after)
             = ({| method := method self;
                   fastboot_at := consumed_fastboot_at (fastboot_at self) before |},
                Some (unexpected_key key),
                map (fun e => EvConsume (fst e)) before ++ [EvConsume key])).
  { clear m. induction before as [|[k v] rest IH]; intros self.
    - cbn [app consume_entries]. unfold consume_variant.
      apply String.eqb_neq in Hkey. rewrite Hkey.
      rewrite consume_entries_stops. destruct self. reflexivity.
    - cbn [app consume_entries]. unfold consume_variant.
      rewrite (Hall k v (or_introl eq_refl)). rewrite String.eqb_refl.
      rewrite IH.
      + reflexivity.
      + intros k' v' Hin. eapply Hall. right. exact Hin. }
  rewrite H. cbn. rewrite <- app_assoc. reflexivity.
Qed.

(** X7.  In a dictionary of "fastboot-at" entries the last one decides,
    for every discriminant: if it holds a string, that string is the field;
    if it holds anything else the field is cleared, whatever an earlier entry
    supplied, which the fastboot method reports as its missing setting and
    any other method accepts. *)
Theorem decode_last_entry_decides (m : Z)
    (before : list (string * GVariant)) (value : GVariant) :
  all_fastboot_at before ->
  decode FASTBOOT (wire m (before ++ [(PROPERTY_FASTBOOT_AT, value)]))
  = match g_variant_dup_string value with
    | Some cmd => Ok {| method := m; fastboot_at := Some cmd |}
    | None =>
        if Z.eqb m FASTBOOT then Error fastboot_at_required
        else Ok {| method := m; fastboot_at := None |}
    end.
Proof.
  intros Hall. unfold decode. rewrite decode_wire.
  rewrite consume_entries_fold.
  - unfold consumed_fastboot_at. rewrite fold_left_app. cbn.
    destruct (g_variant_dup_string value); destruct (Z.eqb m FASTBOOT);
      reflexivity.
  - intros k v Hin. apply in_app_or in Hin. destruct Hin as [Hin|[Heq|[]]].
    + eapply Hall; eauto.
    + now inversion Heq.
Qed.

(** X8.  The accessors of the AT command are guarded by the method: on a
    fastboot settings the getter returns what the setter stored, replacing
    any earlier value; on any other settings the setter changes nothing and
    the getter returns [NULL], even when decoding left a command in the
    object.  The setter never changes the method. *)
Theorem fastboot_at_set_get (s : MMFirmwareUpdateSettings)
    (at_cmd : option string) :
  method (mm_firmware_update_settings_set_fastboot_at FASTBOOT s at_cmd)
  = method s
  /\ (method s = FASTBOOT ->
      mm_firmware_update_settings_get_fastboot_at FASTBOOT
        (Some (mm_firmware_update_settings_set_fastboot_at FASTBOOT s at_cmd))
      = at_cmd)
  /\ (method s <> FASTBOOT ->
      mm_firmware_update_settings_set_fastboot_at FASTBOOT s at_cmd = s
      /\ mm_firmware_update_settings_get_fastboot_at FASTBOOT
           (Some (mm_firmware_update_settings_set_fastboot_at FASTBOOT s at_cmd))
         = None).
Proof.
  unfold mm_firmware_update_settings_set_fastboot_at,
    mm_firmware_update_settings_get_fastboot_at.
  destruct (Z.eqb_spec (method s) FASTBOOT) as [Hm|Hm]; cbn.
  - split; [reflexivity|]. split.
    + intros _. rewrite Hm, Z.eqb_refl. reflexivity.
    + intros Hne. now destruct Hne.
  - split; [reflexivity|]. split.
    + intros He. now destruct Hm.
    + intros _. split; [reflexivity|].
      apply Z.eqb_neq in Hm. now rewrite Hm.
Qed.

End SettingsCodec.

Lemma get_variant_without_dictionary_witness :
  FirmwareUpdateSettings.method (FirmwareUpdateSettings.mm_firmware_update_settings_new 0) <> 1 /\
  FirmwareUpdateSettings.decode 1
    (FirmwareUpdateSettings.mm_firmware_update_settings_get_variant 1
       (Some (FirmwareUpdateSettings.mm_firmware_update_settings_new 0)))
  = Error (FirmwareUpdateSettings.invalid_args "No input given").
Proof.
  split.
  - simpl. lia.
  - apply (get_variant_without_dictionary 1
             (FirmwareUpdateSettings.mm_firmware_update_settings_new 0)).
    simpl. lia.
Defined.

Lemma new_from_variant_rejects_outer_shape_witness :
  exists msg,
    FirmwareUpdateSettings.mm_firmware_update_settings_new_from_variant 1
      (Some (GV_tuple [GV_uint32 1; GV_string (utf8_text "AT^FASTBOOT")]))
    = (Error (FirmwareUpdateSettings.invalid_args msg), []).
Proof.
  apply (new_from_variant_rejects_outer_shape 1).
  right. exists (GV_tuple [GV_uint32 1; GV_string (utf8_text "AT^FASTBOOT")]).
  split; [reflexivity|]. intros n entries H. discriminate H.
Defined.

Lemma new_from_variant_unknown_key_witness :
  exists key evs,
    FirmwareUpdateSettings.mm_firmware_update_settings_new_from_variant 1
      (Some (GV_tuple [GV_uint32 0; GV_vardict fastboot_wire_with_extra_key]))
    = (Error (FirmwareUpdateSettings.unexpected_key key),
       FirmwareUpdateSettings.EvObjectNew 0
         :: evs ++ [FirmwareUpdateSettings.EvObjectUnref])
    /\ key <> FirmwareUpdateSettings.PROPERTY_FASTBOOT_AT
    /\ In key (map fst fastboot_wire_with_extra_key)
    /\ error_code (FirmwareUpdateSettings.unexpected_key key)
       = MM_CORE_ERROR_INVALID_ARGS.
Proof.
  apply (new_from_variant_unknown_key 1 0 fastboot_wire_with_extra_key).
  exists "version", (GV_string (utf8_text "1")). split.
  - simpl. right. left. reflexivity.
  - discriminate.
Defined.

Lemma new_from_variant_fastboot_witness :
  FirmwareUpdateSettings.decode 1
    (Some (GV_tuple [GV_uint32 1; GV_vardict fastboot_settings_wire]))
  = Ok {| FirmwareUpdateSettings.method := 1;
          FirmwareUpdateSettings.fastboot_at := Some "AT^FASTBOOT" |}.
Proof.
  apply (proj2 (new_from_variant_fastboot 1 fastboot_settings_wire
                  ltac:(intros key value [Heq|[]]; inversion Heq; reflexivity))
               [] (utf8_text "AT^FASTBOOT")).
  reflexivity.
Defined.

Lemma new_from_variant_other_method_witness :
  77 <> 1 /\
  FirmwareUpdateSettings.mm_firmware_update_settings_new_from_variant 1
    (Some (GV_tuple [GV_uint32 77; GV_vardict []]))
  = (Ok {| FirmwareUpdateSettings.method := 77;
           FirmwareUpdateSettings.fastboot_at := None |},
     [FirmwareUpdateSettings.EvObjectNew 77]).
Proof.
  split.
  - lia.
  - apply (new_from_variant_other_method 1 77). lia.
Defined.

(** C9 as stated fails: with the fastboot method, an entry supplies
    "fastboot-at" as a string and decoding still fails, because of the other
    key; and where no entry sets "fastboot-at" the error names the unexpected
    key, not the missing setting. *)
Lemma new_from_variant_fastboot_counterexample :
  (In ("fastboot-at", GV_string (utf8_text "AT^FASTBOOT")) fastboot_wire_with_extra_key /\
   FirmwareUpdateSettings.decode 1
     (Some (GV_tuple [GV_uint32 1; GV_vardict fastboot_wire_with_extra_key]))
   = Error (FirmwareUpdateSettings.invalid_args
              "Invalid settings dictionary, unexpected key 'version'")) /\
  ((forall value, ~ In ("fastboot-at", value) version_only_wire) /\
   FirmwareUpdateSettings.decode 1
     (Some (GV_tuple [GV_uint32 1; GV_vardict version_only_wire]))
   = Error (FirmwareUpdateSettings.invalid_args
              "Invalid settings dictionary, unexpected key 'version'")).
Proof.
  split; split.
  - left. reflexivity.
  - reflexivity.
  - intros value [H|[]]. discriminate H.
  - reflexivity.
Qed.

(** ** The extended signal interface *)

Section SignalPolling.

Import IfaceModemSignal.

Variable ENABLING : Z.

Local Abbreviation setup := (setup_refresh_context ENABLING).

Ltac monad_unfold :=
  unfold teardown_refresh_context, g_object_set_qdata_NULL, clear_values,
    refresh_context_free, g_source_remove, g_timeout_add_seconds,
    refresh_context_cb, mm_dbg, mm_warn, emit, bind, ret, get, modify,
    undefined in *.

Ltac world_unfold :=
  unfold add_event, set_dbus_skeleton, set_exported, set_modem_state,
    set_refresh_context, set_sources, set_loads_in_flight,
    set_auth_in_flight in *.

Lemma polls_app tr evs : polls (tr ++ evs) = (polls tr + polls evs)%nat.
Proof.
  induction tr as [|e tr IH]; [reflexivity|].
  destruct e; simpl; rewrite IH; reflexivity.
Qed.

Lemma quiet_polls evs : quiet evs -> polls evs = O.
Proof.
  unfold quiet. induction evs as [|e evs IH]; [reflexivity|].
  destruct e; simpl; auto; discriminate.
Qed.

(** C3.  When a refresh context exists whose rate is the nonzero rate the
    procedure works with and whose timer is armed, the procedure returns
    success and leaves the context, the timeout sources and the pending loads
    as they were: no source is removed or added and no load is started. *)
Theorem setup_refresh_context_same_rate
    (w : World) (update_rate : bool) (new_rate r : Z) (ctx : RefreshContext) :
  effective_rate update_rate new_rate w = Some r ->
  r <> 0 ->
  refresh_context w = Some ctx ->
  rate ctx = r ->
  timeout_source ctx <> 0 ->
  exists w' evs,
    setup update_rate new_rate w = Some (Ok tt, w')
    /\ refresh_context w' = Some ctx
    /\ sources w' = sources w
    /\ next_source_id w' = next_source_id w
    /\ loads_in_flight w' = loads_in_flight w
    /\ trace w' = trace w ++ evs /\ quiet evs.
Proof.
  unfold effective_rate. intros Heff Hr Hctx Hrate _.
  destruct (dbus_skeleton w) as [skeleton|] eqn:Hsk; [|discriminate].
  injection Heff as Heff.
  unfold setup_refresh_context. monad_unfold. world_unfold. rewrite Hsk.
  destruct update_rate; cbn; subst r.
  - apply Z.eqb_neq in Hr. rewrite Hr.
    destruct (Z.ltb (modem_state w) ENABLING); cbn.
    + eexists _, [_]. repeat split; cbn; auto.
    + rewrite Hctx. cbn. rewrite Hrate, Z.eqb_refl. cbn.
      eexists _, []. rewrite app_nil_r. repeat split; cbn; auto.
  - unfold mm_gdbus_modem_signal_get_rate in *.
    apply Z.eqb_neq in Hr. rewrite Hr.
    destruct (Z.ltb (modem_state w) ENABLING); cbn.
    + eexists _, [_]. repeat split; cbn; auto.
    + rewrite Hctx. cbn. rewrite Hrate, Z.eqb_refl. cbn.
      eexists _, []. rewrite app_nil_r. repeat split; cbn; auto.
Qed.

Lemma source_removed id l :
  existsb (fun s : Z * Z => Z.eqb (fst s) id)
          (filter (fun s => negb (Z.eqb (fst s) id)) l) = false.
Proof.
  induction l as [|s l IH]; [reflexivity|]. simpl.
  destruct (Z.eqb (fst s) id) eqn:E; simpl; [exact IH|].
  rewrite E. exact IH.
Qed.

(** C6.  When the rate the procedure works with is 0, supplied or read from
    the skeleton, it returns success; the refresh context is gone; the timeout
    source the context held has been removed from the main loop (no source is
    left at all when the context's was the only one); every measurement
    reads [(FALSE, 0.0)]; the published rate reads 0; and no load is
    started. *)
Theorem setup_refresh_context_rate_zero
    (w : World) (update_rate : bool) (new_rate : Z) :
  effective_rate update_rate new_rate w = Some 0 ->
  exists w',
    setup update_rate new_rate w = Some (Ok tt, w')
    /\ refresh_context w' = None
    /\ (forall ctx, refresh_context w = Some ctx -> timeout_source ctx <> 0 ->
          source_armed (timeout_source ctx) w' = false)
    /\ (timers_owned w -> sources w' = [])
    /\ measurements_unavailable w'
    /\ (exists skeleton, dbus_skeleton w' = Some skeleton
                         /\ mm_gdbus_modem_signal_get_rate skeleton = 0)
    /\ polls (trace w') = polls (trace w).
Proof.
  unfold effective_rate. intros Heff.
  destruct w as [vt sk ex st rc src nxt lif aif tr]. cbn in Heff.
  destruct sk as [skeleton|]; [|discriminate].
  injection Heff as Heff.
  assert (Hzero : Z.eqb (if update_rate then new_rate
                         else mm_gdbus_modem_signal_get_rate skeleton) 0 = true).
  { rewrite Heff. reflexivity. }
  unfold setup_refresh_context, measurements_unavailable, timers_owned,
    source_armed.
  monad_unfold. world_unfold. cbn.
  assert (Hpolls : forall e, polls (tr ++ [EvLog LogDebug e []]) = polls tr).
  { intros e. now rewrite polls_app, Nat.add_0_r. }
  destruct update_rate; cbn; rewrite Hzero; cbn.
  - destruct rc as [ctx|]; cbn.
    + destruct (Z.eqb (timeout_source ctx) 0) eqn:Hts; cbn.
      * eexists. split; [reflexivity|]. cbn. repeat split; auto.
        -- intros c Hc Hne. injection Hc as <-.
           apply Z.eqb_neq in Hne. congruence.
        -- now intros [_ ->].
        -- intros sk Hs. now injection Hs as <-.
        -- eexists. split; [reflexivity|exact Heff].
      * eexists. split; [reflexivity|]. cbn. repeat split.
        -- intros c Hc _. injection Hc as <-. apply source_removed.
        -- intros [_ ->]. cbn. now rewrite Z.eqb_refl.
        -- intros sk Hs. now injection Hs as <-.
        -- eexists. split; [reflexivity|exact Heff].
        -- now rewrite !polls_app, !Nat.add_0_r.
    + eexists. split; [reflexivity|]. cbn. repeat split; auto.
      * intros c Hc. discriminate.
      * now intros [_ ->].
      * intros sk Hs. now injection Hs as <-.
      * eexists. split; [reflexivity|exact Heff].
  - destruct rc as [ctx|]; cbn.
    + destruct (Z.eqb (timeout_source ctx) 0) eqn:Hts; cbn.
      * eexists. split; [reflexivity|]. cbn. repeat split; auto.
        -- intros c Hc Hne. injection Hc as <-.
           apply Z.eqb_neq in Hne. congruence.
        -- now intros [_ ->].
        -- intros sk Hs. now injection Hs as <-.
        -- eexists. split; [reflexivity|exact Heff].
      * eexists. split; [reflexivity|]. cbn. repeat split.
        -- intros c Hc _. injection Hc as <-. apply source_removed.
        -- intros [_ ->]. cbn. now rewrite Z.eqb_refl.
        -- intros sk Hs. now injection Hs as <-.
        -- eexists. split; [reflexivity|exact Heff].
        -- now rewrite !polls_app, !Nat.add_0_r.
    + eexists. split; [reflexivity|]. cbn. repeat split; auto.
      * intros c Hc. discriminate.
      * now intros [_ ->].
      * intros sk Hs. now injection Hs as <-.
      * eexists. split; [reflexivity|exact Heff].
Qed.

(** C5.  When a backend load completes with an error, the completion
    handler leaves every measurement at [(FALSE, 0.0)], does not touch the
    refresh context, the timeout sources or the published rate, and answers
    no bus caller: the only thing it emits is a warning.  An armed source is
    still armed afterwards and its next tick starts a load as usual, keeping
    the source. *)
Theorem load_values_ready_error (w : World) (error : GError) :
  load_values_finish (iface w) = true ->
  exists w',
    load_values_ready (Error error) w = Some (tt, w')
    /\ measurements_unavailable w'
    /\ refresh_context w' = refresh_context w
    /\ sources w' = sources w
    /\ next_source_id w' = next_source_id w
    /\ option_map mm_gdbus_modem_signal_get_rate (dbus_skeleton w')
       = option_map mm_gdbus_modem_signal_get_rate (dbus_skeleton w)
    /\ trace w'
       = trace w ++ [EvLog LogWarn "Couldn't load extended signal information: %s"
                           [ArgString (error_message error)]]
    /\ (forall id, load_values (iface w) = true -> source_armed id w = true ->
          exists w'', step ENABLING (LTick id) w' = Some w''
                      /\ sources w'' = sources w
                      /\ refresh_context w'' = refresh_context w
                      /\ polls (trace w'') = S (polls (trace w))).
Proof.
  intros Hfinish.
  destruct w as [vt sk ex st rc src nxt lif aif tr]. cbn in Hfinish.
  unfold load_values_ready, step, source_armed, measurements_unavailable.
  monad_unfold. world_unfold. cbn. rewrite Hfinish. cbn.
  destruct sk as [skeleton|]; cbn.
  - eexists. split; [reflexivity|]. cbn. repeat split.
    + intros s Hs. now injection Hs as <-.
    + intros id Hload Harmed. rewrite Harmed, Hload. cbn.
      eexists. split; [reflexivity|]. cbn. repeat split.
      rewrite !polls_app. cbn. lia.
  - eexists. split; [reflexivity|]. cbn. repeat split.
    + intros s Hs. discriminate.
    + intros id Hload Harmed. rewrite Harmed, Hload. cbn.
      eexists. split; [reflexivity|]. cbn. repeat split.
      rewrite !polls_app. cbn. lia.
Qed.

(** C4.  An inbound [Setup (rate)] only records the request and asks for
    authorisation: the skeleton (and so the published rate), the refresh
    context, the timeout sources and the pending loads are as before.  When
    the authorisation is later denied, in whatever state the object then is,
    the invocation is answered with the very error the authorisation
    reported and again none of these changes. *)
Theorem handle_setup_denied (w w2 : World) (inv rate : Z) (error : GError) :
  (exists w1,
     handle_setup inv rate w = Some (true, w1)
     /\ dbus_skeleton w1 = dbus_skeleton w
     /\ refresh_context w1 = refresh_context w
     /\ sources w1 = sources w
     /\ loads_in_flight w1 = loads_in_flight w
     /\ auth_in_flight w1
        = auth_in_flight w ++ [{| invocation := inv; setup_rate := rate |}]
     /\ trace w1 = trace w ++ [EvAuthorize inv MM_AUTHORIZATION_DEVICE_CONTROL])
  /\
  (exists w3,
     handle_setup_auth_ready ENABLING (Error error)
       {| invocation := inv; setup_rate := rate |} w2 = Some (tt, w3)
     /\ dbus_skeleton w3 = dbus_skeleton w2
     /\ refresh_context w3 = refresh_context w2
     /\ sources w3 = sources w2
     /\ next_source_id w3 = next_source_id w2
     /\ loads_in_flight w3 = loads_in_flight w2
     /\ trace w3 = trace w2 ++ [EvTakeError inv error]).
Proof.
  split.
  - unfold handle_setup. monad_unfold. world_unfold. cbn.
    eexists. split; [reflexivity|]. cbn. repeat split.
  - unfold handle_setup_auth_ready, handle_setup_context_free.
    monad_unfold. world_unfold. cbn.
    eexists. split; [reflexivity|]. cbn. repeat split.
Qed.

(** The procedure below ENABLING: with a nonzero rate it returns success and
    leaves the refresh context, the timeout sources and the pending loads as
    they were, arming no timer and starting no load. *)
Lemma setup_refresh_context_below_enabling
    (w : World) (update_rate : bool) (new_rate r : Z) :
  effective_rate update_rate new_rate w = Some r ->
  r <> 0 ->
  modem_state w < ENABLING ->
  exists w' evs,
    setup update_rate new_rate w = Some (Ok tt, w')
    /\ refresh_context w' = refresh_context w
    /\ sources w' = sources w
    /\ next_source_id w' = next_source_id w
    /\ loads_in_flight w' = loads_in_flight w
    /\ modem_state w' = modem_state w
    /\ trace w' = trace w ++ evs /\ quiet evs.
Proof.
  unfold effective_rate. intros Heff Hr Hst.
  destruct w as [vt sk ex st rc src nxt lif aif tr]. cbn in Heff, Hst.
  destruct sk as [skeleton|]; [|discriminate].
  injection Heff as Heff. apply Z.eqb_neq in Hr. apply Z.ltb_lt in Hst.
  unfold setup_refresh_context. monad_unfold. world_unfold. cbn.
  destruct update_rate; cbn; subst r; rewrite Hr; cbn; rewrite Hst; cbn;
    eexists _, [_]; repeat split.
Qed.

(** *** Invariants of the transition system *)

Ltac step_unfold :=
  unfold step, after, source_armed, mm_iface_modem_signal_initialize,
    mm_iface_modem_signal_enable, mm_iface_modem_signal_disable,
    mm_iface_modem_signal_shutdown, handle_setup, handle_setup_auth_ready,
    handle_setup_context_free, load_values_ready, setup_refresh_context in *;
  monad_unfold; world_unfold.

Ltac case_step H :=
  repeat (cbn in H;
          match type of H with
          | context [match ?x with _ => _ end] =>
              lazymatch x with
              | context [match _ with _ => _ end] => fail
              | _ => let E := fresh "E" in destruct x eqn:E
              end
          end);
  cbn in H; try discriminate H.

Lemma step_dormant (l : Label) (w w' : World) :
  dormant ENABLING w ->
  (forall st, l = LModemState st -> st < ENABLING) ->
  step ENABLING l w = Some w' ->
  dormant ENABLING w'.
Proof.
  unfold dormant. intros (Hst & Hrc & Hsrc & Hlif & Hpolls) Hl Hstep.
  destruct w as [vt sk ex st rc src nxt lif aif tr]. cbn in *. subst.
  destruct l; step_unfold; case_step Hstep.
  all: try match goal with
           | H : Z.ltb _ _ = false |- _ => apply Z.ltb_ge in H; lia
           end.
  all: try (injection Hstep as <-; cbn;
            rewrite ?polls_app, ?Hpolls; cbn; repeat split; auto).
  all: try (apply Hl; reflexivity).
Qed.

Lemma initial_dormant (vtable : MMIfaceModemSignal) (st : Z) :
  st < ENABLING -> dormant ENABLING (initial_world vtable st).
Proof. intros Hst. unfold dormant. cbn. auto. Qed.

Lemma run_dormant (ls : list Label) :
  forall w w',
    dormant ENABLING w ->
    stays_below_enabling ENABLING ls ->
    run ENABLING ls w = Some w' ->
    dormant ENABLING w'.
Proof.
  induction ls as [|l ls IH]; intros w w' Hw Hls Hrun; cbn in Hrun.
  - now injection Hrun as <-.
  - destruct (step ENABLING l w) as [w1|] eqn:Hstep; [|discriminate].
    apply (IH w1 w'); auto.
    + apply (step_dormant l w w1); auto.
      intros st ->. apply Hls. now left.
    + intros st Hin. apply Hls. now right.
Qed.

(** Below ENABLING a step arms no timeout source, and the only step that
    starts a load is the tick of a source that is armed. *)
Lemma step_below_enabling (l : Label) (w w' : World) :
  modem_state w < ENABLING ->
  step ENABLING l w = Some w' ->
  (forall src, In src (sources w') -> In src (sources w))
  /\ match l with
     | LTick id =>
         source_armed id w = true
         /\ polls (trace w') = S (polls (trace w))
     | _ => polls (trace w') = polls (trace w)
     end.
Proof.
  intros Hst Hstep.
  destruct w as [vt sk ex st rc src nxt lif aif tr]. cbn in Hst.
  destruct l; step_unfold; case_step Hstep.
  all: try match goal with
           | H : Z.ltb _ _ = false |- _ => apply Z.ltb_ge in H; lia
           end.
  all: injection Hstep as <-; cbn; rewrite ?polls_app; cbn.
  all: split; [|repeat split; try reflexivity; try assumption; lia].
  all: intros s Hs; try exact Hs.
  all: try (apply filter_In in Hs; exact (proj1 Hs)).
Qed.

Lemma step_unarmed (l : Label) (w w' : World) :
  unarmed ENABLING w ->
  (forall st, l = LModemState st -> st < ENABLING) ->
  step ENABLING l w = Some w' ->
  unarmed ENABLING w' /\ polls (trace w') = polls (trace w).
Proof.
  unfold unarmed. intros (Hst & Hrc & Hsrc) Hl Hstep.
  destruct w as [vt sk ex st rc src nxt lif aif tr]. cbn in *. subst.
  destruct l; step_unfold; case_step Hstep.
  all: try match goal with
           | H : Z.ltb _ _ = false |- _ => apply Z.ltb_ge in H; lia
           end.
  all: injection Hstep as <-; cbn; rewrite ?polls_app; cbn.
  all: repeat split; auto; try lia.
Qed.

Lemma run_unarmed (ls : list Label) :
  forall w w',
    unarmed ENABLING w ->
    stays_below_enabling ENABLING ls ->
    run ENABLING ls w = Some w' ->
    unarmed ENABLING w' /\ polls (trace w') = polls (trace w).
Proof.
  induction ls as [|l ls IH]; intros w w' Hw Hls Hrun; cbn in Hrun.
  - injection Hrun as <-. now split.
  - destruct (step ENABLING l w) as [w1|] eqn:Hstep; [|discriminate].
    destruct (step_unarmed l w w1 Hw) as (Hw1 & Hp1); auto.
    + intros st ->. apply Hls. now left.
    + destruct (IH w1 w' Hw1) as (Hw' & Hp'); auto.
      * intros st Hin. apply Hls. now right.
      * split; [exact Hw'|congruence].
Qed.

(** C2 (amended).  Invoked with a nonzero rate while the modem state is
    below ENABLING, the procedure returns success, arms no timer and starts
    no load, leaving the refresh context and the timeout sources as they
    were.  In every state, a step taken while the modem state is below
    ENABLING arms no timeout source, and starts a load only if it is the tick
    of a source that is armed at that moment.  So from any state in which
    nothing is armed (the object as created, or after [disable] or rate 0),
    as long as the modem state stays below ENABLING, whatever calls and
    completions occur, no refresh context exists, no timeout source is armed
    and no load is started. *)
Theorem polling_below_enabling :
  (forall (w : World) (update_rate : bool) (new_rate r : Z),
     effective_rate update_rate new_rate w = Some r ->
     r <> 0 ->
     modem_state w < ENABLING ->
     exists w' evs,
       setup update_rate new_rate w = Some (Ok tt, w')
       /\ refresh_context w' = refresh_context w
       /\ sources w' = sources w
       /\ loads_in_flight w' = loads_in_flight w
       /\ trace w' = trace w ++ evs /\ quiet evs)
  /\
  (forall (w w' : World) (l : Label),
     modem_state w < ENABLING ->
     step ENABLING l w = Some w' ->
     (forall src, In src (sources w') -> In src (sources w))
     /\ match l with
        | LTick id =>
            source_armed id w = true
            /\ polls (trace w') = S (polls (trace w))
        | _ => polls (trace w') = polls (trace w)
        end)
  /\
  (forall (w w' : World) (ls : list Label),
     modem_state w < ENABLING ->
     refresh_context w = None ->
     sources w = [] ->
     stays_below_enabling ENABLING ls ->
     run ENABLING ls w = Some w' ->
     refresh_context w' = None /\ sources w' = []
     /\ polls (trace w') = polls (trace w))
  /\
  (forall (vtable : MMIfaceModemSignal) (st : Z) (ls : list Label) (w : World),
     st < ENABLING ->
     stays_below_enabling ENABLING ls ->
     run ENABLING ls (initial_world vtable st) = Some w ->
     refresh_context w = None /\ sources w = [] /\ polls (trace w) = O).
Proof.
  split; [|split; [|split]].
  - intros w update_rate new_rate r Heff Hr Hst.
    destruct (setup_refresh_context_below_enabling w update_rate new_rate r
                Heff Hr Hst)
      as (w' & evs & H1 & H2 & H3 & _ & H4 & _ & H5 & H6).
    exists w', evs. repeat split; assumption.
  - intros w w' l Hst Hstep. exact (step_below_enabling l w w' Hst Hstep).
  - intros w w' ls Hst Hrc Hsrc Hls Hrun.
    destruct (run_unarmed ls w w' (conj Hst (conj Hrc Hsrc)) Hls Hrun)
      as ((_ & Hrc' & Hsrc') & Hpolls).
    repeat split; assumption.
  - intros vtable st ls w Hst Hls Hrun.
    destruct (run_dormant ls _ w (initial_dormant vtable st Hst) Hls Hrun)
      as (_ & Hrc & Hsrc & _ & Hpolls).
    repeat split; assumption.
Qed.

Lemma initial_timers_owned (vtable : MMIfaceModemSignal) (st : Z) :
  timers_owned (initial_world vtable st).
Proof. unfold timers_owned. cbn. split; [lia|reflexivity]. Qed.

(** Every step keeps the timeout sources of the main loop those of the
    refresh context. *)
Lemma step_timers_owned (l : Label) (w w' : World) :
  timers_owned w -> step ENABLING l w = Some w' -> timers_owned w'.
Proof.
  unfold timers_owned. intros (Hnxt & Hsrc) Hstep.
  destruct w as [vt sk ex st rc src nxt lif aif tr]. cbn in *. subst.
  destruct l; step_unfold; case_step Hstep.
  all: try match goal with
           | H : negb (Z.eqb ?a ?a) = true |- _ =>
               rewrite Z.eqb_refl in H; discriminate H
           end.
  all: try solve [match goal with
                  | H : negb _ = _ |- _ => cbn in H; discriminate H
                  end].
  all: try (injection Hstep as <-; cbn; split; [lia|]; cbn;
            rewrite ?Z.eqb_refl; cbn; auto).
  all: try match goal with
           | H : Z.eqb ?a 0 = _ |- context [Z.eqb ?a 0] => rewrite H
           end; cbn; rewrite ?Z.eqb_refl; cbn; auto.
  all: try match goal with
           | |- context [Z.eqb ?a 0] =>
               destruct (Z.eqb_spec a 0); [lia|reflexivity]
           end.
Qed.

Lemma run_timers_owned (ls : list Label) :
  forall w w', timers_owned w -> run ENABLING ls w = Some w' -> timers_owned w'.
Proof.
  induction ls as [|l ls IH]; intros w w' Hw Hrun; cbn in Hrun.
  - now injection Hrun as <-.
  - destruct (step ENABLING l w) as [w1|] eqn:Hstep; [|discriminate].
    apply (IH w1 w'); auto. apply (step_timers_owned l w w1); auto.
Qed.

(** *** Further properties of the refresh procedure *)

Ltac trace_app :=
  cbn; rewrite <- ?app_assoc; cbn; reflexivity.

(** The procedure arming a timer: a nonzero rate that differs from the
    context's, at or above ENABLING, with the sources those of the
    context. *)
Lemma setup_arms (w : World) (update_rate : bool) (new_rate r : Z) :
  effective_rate update_rate new_rate w = Some r ->
  r <> 0 ->
  ENABLING <= modem_state w ->
  load_values (iface w) = true ->
  timers_owned w ->
  (forall ctx, refresh_context w = Some ctx -> rate ctx <> r) ->
  exists w',
    setup update_rate new_rate w = Some (Ok tt, w')
    /\ refresh_context w'
       = Some {| rate := r; timeout_source := next_source_id w |}
    /\ sources w' = [(next_source_id w, r)]
    /\ next_source_id w' = next_source_id w + 1
    /\ loads_in_flight w' = S (loads_in_flight w)
    /\ polls (trace w') = S (polls (trace w))
    /\ published_rate w' = Some r
    /\ published_values w' = published_values w
    /\ modem_state w' = modem_state w
    /\ iface w' = iface w
    /\ exported w' = exported w
    /\ auth_in_flight w' = auth_in_flight w.
Proof.
  unfold effective_rate, timers_owned, published_rate, published_values.
  intros Heff Hr Hst Hload (Hnxt & Hsrc) Hctx.
  destruct w as [vt sk ex st rc src nxt lif aif tr]. cbn in *.
  destruct sk as [skeleton|]; [|discriminate].
  injection Heff as Heff.
  assert (Hz : Z.eqb (if update_rate then new_rate
                      else mm_gdbus_modem_signal_get_rate skeleton) 0 = false).
  { rewrite Heff. now apply Z.eqb_neq. }
  assert (Hlt : Z.ltb st ENABLING = false) by now apply Z.ltb_ge.
  unfold setup_refresh_context. monad_unfold. world_unfold. cbn.
  destruct update_rate; cbn; rewrite Hz; cbn; rewrite Hlt; cbn.
  all: destruct rc as [ctx|]; cbn.
  all: try (specialize (Hctx ctx eq_refl); apply Z.eqb_neq in Hctx;
            rewrite Heff, Hctx; cbn;
            destruct (Z.eqb (timeout_source ctx) 0) eqn:Hts; cbn; subst src;
            cbn; rewrite ?Z.eqb_refl; cbn; rewrite Hload; cbn).
  all: try (subst r;
            match goal with
            | |- context [match ?x with _ => _ end] =>
                match type of x with
                | Z => destruct x eqn:Hx; [now destruct Hr|..]
                end
            end; cbn; rewrite Hload; cbn; subst src).
  all: eexists; split; [reflexivity|]; cbn;
    rewrite ?polls_app; cbn; rewrite ?Nat.add_0_r, ?Nat.add_1_r;
    repeat split; try reflexivity; try congruence.
Qed.

Ltac case_goal :=
  repeat (cbn;
          match goal with
          | |- context [match ?x with _ => _ end] =>
              lazymatch x with
              | context [match _ with _ => _ end] => fail
              | _ => let E := fresh "E" in destruct x eqn:E
              end
          end);
  cbn.

(** With a skeleton (and a backend that can load), the procedure succeeds
    on every path: it publishes the rate it works with, answers no bus
    caller and leaves the modem state, the vtable, the export and the pending
    authorisations alone. *)
Lemma setup_with_skeleton (w : World) (update_rate : bool) (new_rate : Z)
    (skeleton : MmGdbusModemSignal) :
  dbus_skeleton w = Some skeleton ->
  load_values (iface w) = true ->
  exists w' evs,
    setup update_rate new_rate w = Some (Ok tt, w')
    /\ trace w' = trace w ++ evs
    /\ filter is_reply_event evs = []
    /\ published_rate w' = effective_rate update_rate new_rate w
    /\ modem_state w' = modem_state w
    /\ iface w' = iface w
    /\ exported w' = exported w
    /\ auth_in_flight w' = auth_in_flight w.
Proof.
  unfold effective_rate, published_rate. intros Hsk Hload.
  destruct w as [[lv lvf] sk ex st rc src nxt lif aif tr]. cbn in *. subst.
  unfold setup_refresh_context. monad_unfold. world_unfold.
  destruct update_rate; case_goal.
  all: eexists _, _; split; [reflexivity|]; cbn; split;
    [first [symmetry; apply app_nil_r
           |rewrite <- ?app_assoc; cbn; reflexivity]|]; repeat split;
    congruence.
Qed.

(** X9.  The procedure succeeds exactly when the skeleton exists: with one
    (and a backend that can load) it returns success on every path, having
    published the rate it worked with; without one it fails with
    MM_CORE_ERROR_FAILED and changes nothing at all, not even the rate it was
    given. *)
Theorem setup_refresh_context_outcome (w : World) (update_rate : bool)
    (new_rate : Z) :
  load_values (iface w) = true ->
  match dbus_skeleton w with
  | Some _ =>
      exists w',
        setup update_rate new_rate w = Some (Ok tt, w')
        /\ published_rate w' = effective_rate update_rate new_rate w
        /\ modem_state w' = modem_state w
  | None =>
      setup update_rate new_rate w = Some (Error skeleton_missing, w)
  end.
Proof.
  intros Hload. destruct (dbus_skeleton w) as [skeleton|] eqn:Hsk.
  - destruct (setup_with_skeleton w update_rate new_rate skeleton Hsk Hload)
      as (w' & evs & H1 & _ & _ & H2 & H3 & _).
    exists w'. repeat split; assumption.
  - unfold setup_refresh_context. monad_unfold. rewrite Hsk. reflexivity.
Qed.

(** X10.  A nonzero rate that is not the refresh context's, at or above
    ENABLING: whatever timer the context held is gone and exactly one timeout
    source is armed, fresh, with the new rate as interval; the context records
    that rate and that source; one load is started right away; the published
    measurements are not touched. *)
Theorem setup_refresh_context_arms_timer (w : World) (update_rate : bool)
    (new_rate r : Z) :
  effective_rate update_rate new_rate w = Some r ->
  r <> 0 ->
  ENABLING <= modem_state w ->
  load_values (iface w) = true ->
  timers_owned w ->
  (forall ctx, refresh_context w = Some ctx -> rate ctx <> r) ->
  exists w',
    setup update_rate new_rate w = Some (Ok tt, w')
    /\ refresh_context w'
       = Some {| rate := r; timeout_source := next_source_id w |}
    /\ sources w' = [(next_source_id w, r)]
    /\ loads_in_flight w' = S (loads_in_flight w)
    /\ polls (trace w') = S (polls (trace w))
    /\ published_rate w' = Some r
    /\ published_values w' = published_values w.
Proof.
  intros Heff Hr Hst Hload Hown Hctx.
  destruct (setup_arms w update_rate new_rate r Heff Hr Hst Hload Hown Hctx)
    as (w' & H1 & H2 & H3 & _ & H4 & H5 & H6 & H7 & _).
  exists w'. repeat split; assumption.
Qed.

(** X11.  Every completed authorisation is answered exactly once, on its
    own invocation, and its request is released: with the error reported by
    the authorisation when denied, with the procedure's error when the
    skeleton is gone by then, and with the plain completion of [Setup]
    otherwise. *)
Theorem handle_setup_auth_ready_replies_once (w : World)
    (ctx : HandleSetupContext) (res : result unit) :
  load_values (iface w) = true ->
  exists w' evs,
    handle_setup_auth_ready ENABLING res ctx w = Some (tt, w')
    /\ trace w' = trace w ++ evs
    /\ filter is_reply_event evs
       = [match res with
          | Error error => EvTakeError (invocation ctx) error
          | Ok _ =>
              match dbus_skeleton w with
              | Some _ => EvCompleteSetup (invocation ctx)
              | None => EvTakeError (invocation ctx) skeleton_missing
              end
          end]
    /\ auth_in_flight w' = remove_first ctx (auth_in_flight w).
Proof.
  intros Hload. unfold handle_setup_auth_ready, handle_setup_context_free.
  destruct res as [[]|error].
  - destruct (dbus_skeleton w) as [skeleton|] eqn:Hsk.
    + destruct (setup_with_skeleton w true (setup_rate ctx) skeleton Hsk Hload)
        as (w1 & evs & H1 & H2 & H3 & _ & _ & _ & _ & H4).
      exists (set_auth_in_flight (remove_first ctx (auth_in_flight w1))
                (add_event (EvCompleteSetup (invocation ctx)) w1)),
             (evs ++ [EvCompleteSetup (invocation ctx)]).
      monad_unfold. rewrite H1. cbn. repeat split.
      * rewrite H2, app_assoc. reflexivity.
      * rewrite filter_app, H3. reflexivity.
      * now rewrite H4.
    + unfold setup_refresh_context. monad_unfold. rewrite Hsk. cbn.
      eexists _, [_]. repeat split.
  - monad_unfold. cbn. eexists _, [_]. repeat split.
Qed.

(** *** Further invariants *)

Ltac absurd_case :=
  try match goal with
      | H : negb (Z.eqb ?a ?a) = true |- _ =>
          rewrite Z.eqb_refl in H; discriminate H
      end;
  try solve [match goal with
             | H : negb _ = _ |- _ => cbn in H; discriminate H
             end];
  try solve [match goal with
             | H : Z.eqb ?a 0 = true, N : ?a <> 0 |- _ =>
                 apply Z.eqb_eq in H; contradiction
             | H : Z.eqb ?a 0 = false, N : ?a = 0 |- _ =>
                 apply Z.eqb_neq in H; contradiction
             end].

Lemma step_polling_state (l : Label) (w w' : World) :
  0 < next_source_id w -> polling_state w ->
  step ENABLING l w = Some w' ->
  0 < next_source_id w' /\ polling_state w'.
Proof.
  unfold polling_state. intros Hnxt Hps Hstep.
  destruct w as [vt sk ex st rc src nxt lif aif tr]. cbn in *.
  destruct Hps as [(-> & ->)|(r & id & Hr & Hid & -> & ->)].
  - destruct l; step_unfold; case_step Hstep; absurd_case.
    all: injection Hstep as <-; cbn; (split; [lia|]).
    all: first [left; split; reflexivity
               |right; eexists _, _; repeat split; try reflexivity; lia].
  - destruct l; step_unfold; case_step Hstep; absurd_case.
    all: injection Hstep as <-; cbn; (split; [lia|]).
    all: first [left; split; reflexivity
               |right; eexists _, _; repeat split; try reflexivity;
                first [assumption | lia
                      | intros ->; match goal with
                                   | H : Z.eqb _ _ = false |- _ =>
                                       cbn in H; discriminate H
                                   end]].
Qed.

Lemma run_polling_state (ls : list Label) :
  forall w w',
    0 < next_source_id w -> polling_state w ->
    run ENABLING ls w = Some w' ->
    0 < next_source_id w' /\ polling_state w'.
Proof.
  induction ls as [|l ls IH]; intros w w' Hnxt Hps Hrun; cbn in Hrun.
  - injection Hrun as <-. now split.
  - destruct (step ENABLING l w) as [w1|] eqn:Hstep; [|discriminate].
    destruct (step_polling_state l w w1 Hnxt Hps Hstep) as (Hnxt1 & Hps1).
    apply (IH w1 w'); assumption.
Qed.

(** X12.  In every state the object can reach, whatever the calls, ticks,
    completions and modem state changes that led there, the main loop holds
    at most one timeout source for it: either there is no refresh context and
    no source, or the refresh context has a nonzero rate and holds the only
    source, armed at that rate.  No timer is ever left without a context, and
    no context without a timer. *)
Theorem reachable_polling_state (vtable : MMIfaceModemSignal) (st : Z)
    (ls : list Label) (w : World) :
  run ENABLING ls (initial_world vtable st) = Some w ->
  polling_state w.
Proof.
  intros Hrun.
  apply (run_polling_state ls (initial_world vtable st) w); auto.
  - cbn. lia.
  - left. split; reflexivity.
Qed.

Lemma step_unsupported_idle (l : Label) (w w' : World) :
  unsupported_idle w -> step ENABLING l w = Some w' -> unsupported_idle w'.
Proof.
  unfold unsupported_idle, supported.
  intros (Hsup & Hex & Hsk & Hrc & Hsrc & Hlif & Haif & Hpolls) Hstep.
  destruct w as [[lv lvf] sk ex st rc src nxt lif aif tr]. cbn in *. subst.
  assert (Hsk' : match sk with
                 | Some s => prop_rate s = 0 /\ handle_setup_connected s = false
                 | None => True
                 end).
  { destruct sk as [s|]; [apply Hsk; reflexivity|exact I]. }
  clear Hsk.
  destruct sk as [[pr props hs]|]; cbn in Hsk';
    [destruct Hsk' as (-> & ->)|].
  all: destruct l; step_unfold; case_step Hstep.
  all: try congruence.
  all: injection Hstep as <-; cbn; rewrite ?polls_app, ?Hpolls; cbn.
  all: repeat split; auto; try congruence.
  all: try (match goal with
            | H : Some _ = Some _ |- _ => injection H as <-
            end; reflexivity).
Qed.

Lemma run_unsupported_idle (ls : list Label) :
  forall w w',
    unsupported_idle w -> run ENABLING ls w = Some w' -> unsupported_idle w'.
Proof.
  induction ls as [|l ls IH]; intros w w' Hw Hrun; cbn in Hrun.
  - now injection Hrun as <-.
  - destruct (step ENABLING l w) as [w1|] eqn:Hstep; [|discriminate].
    apply (IH w1 w'); auto. apply (step_unsupported_idle l w w1); auto.
Qed.

(** X13.  On a backend that lacks the load operation or its finish, the
    interface never comes to life: whatever happens, it is never exported, no
    handler for [Setup] is connected, the rate of the skeleton that
    [initialize] creates stays 0, no refresh context or timer exists, no
    authorisation is pending and no load is ever started. *)
Theorem unsupported_never_polls (vtable : MMIfaceModemSignal) (st : Z)
    (ls : list Label) (w : World) :
  load_values vtable && load_values_finish vtable = false ->
  run ENABLING ls (initial_world vtable st) = Some w ->
  unsupported_idle w.
Proof.
  intros Hsup Hrun.
  apply (run_unsupported_idle ls (initial_world vtable st) w); auto.
  unfold unsupported_idle, supported. cbn. repeat split; auto; congruence.
Qed.

(** *** The lifecycle entry points *)

(** X14.  [initialize] reports success exactly when the backend provides
    both operations, and MM_CORE_ERROR_UNSUPPORTED otherwise.  It always
    leaves a skeleton; it creates one only when there is none, exporting it
    and connecting [Setup] only on a supported backend, with rate 0 and every
    measurement unavailable; with a skeleton already there it changes nothing.
    Calling it again therefore gives the same result and the same state, and
    it never touches the refresh context or the timers. *)
Theorem initialize_outcome (w : World) :
  exists r w1,
    mm_iface_modem_signal_initialize w = Some (r, w1)
    /\ mm_iface_modem_signal_initialize w1 = Some (r, w1)
    /\ r = (if supported w then Ok tt
            else Error (g_error_new MM_CORE_ERROR_UNSUPPORTED
                          "Extended signal information reporting not supported"))
    /\ (dbus_skeleton w <> None -> w1 = w)
    /\ (dbus_skeleton w = None ->
        if supported w
        then dbus_skeleton w1
             = Some {| prop_rate := 0; properties := cleared_properties;
                       handle_setup_connected := true |}
             /\ exported w1 = true
        else dbus_skeleton w1 = Some mm_gdbus_modem_signal_skeleton_new
             /\ exported w1 = exported w)
    /\ refresh_context w1 = refresh_context w
    /\ sources w1 = sources w
    /\ trace w1 = trace w.
Proof.
  destruct w as [[lv lvf] sk ex st rc src nxt lif aif tr].
  unfold mm_iface_modem_signal_initialize, supported.
  monad_unfold. world_unfold. cbn.
  destruct sk as [skeleton|]; destruct lv, lvf; cbn.
  all: eexists _, _; split; [reflexivity|]; cbn.
  all: repeat split; try reflexivity; try congruence.
Qed.

(** X15.  [disable] always succeeds, with or without a skeleton.  The
    refresh context is gone and its timeout source removed (no source is left
    when the sources were those of the context); every measurement reads
    unavailable; no load is started; the published rate stays as it was, so a
    later [enable] polls at the same rate. *)
Theorem disable_outcome (w : World) :
  exists w',
    mm_iface_modem_signal_disable w = Some (Ok tt, w')
    /\ refresh_context w' = None
    /\ (forall ctx, refresh_context w = Some ctx -> timeout_source ctx <> 0 ->
          source_armed (timeout_source ctx) w' = false)
    /\ (timers_owned w -> sources w' = [])
    /\ measurements_unavailable w'
    /\ published_rate w' = published_rate w
    /\ exported w' = exported w
    /\ polls (trace w') = polls (trace w).
Proof.
  destruct w as [vt sk ex st rc src nxt lif aif tr].
  unfold mm_iface_modem_signal_disable, measurements_unavailable,
    timers_owned, source_armed, published_rate.
  monad_unfold. world_unfold. cbn.
  destruct sk as [skeleton|]; destruct rc as [ctx|]; cbn;
    try (destruct (Z.eqb (timeout_source ctx) 0) eqn:Hts; cbn).
  all: eexists; split; [reflexivity|]; cbn.
  all: rewrite ?polls_app; cbn; rewrite ?Nat.add_0_r.
  all: repeat split; try reflexivity; try congruence.
  all: try (intros c Hc Hne; injection Hc as <-;
            first [apply source_removed
                  |apply Z.eqb_eq in Hts; contradiction]).
  all: try (intros [_ ->]; cbn; rewrite ?Z.eqb_refl; reflexivity).
  all: try (intros s Hs; injection Hs as <-; reflexivity).
Qed.

(** X16.  [shutdown] removes and unexports the skeleton and nothing else:
    the refresh context and its timer stay.  Afterwards [enable] fails for
    want of a skeleton and no [Setup] can arrive, yet a timer left armed keeps
    ticking and each tick still starts a load, whose completion finds no
    skeleton and publishes nothing. *)
Theorem shutdown_outcome (w : World) :
  exists w',
    mm_iface_modem_signal_shutdown w = Some (tt, w')
    /\ dbus_skeleton w' = None
    /\ exported w' = false
    /\ refresh_context w' = refresh_context w
    /\ sources w' = sources w
    /\ trace w' = trace w
    /\ mm_iface_modem_signal_enable ENABLING w'
       = Some (Error skeleton_missing, w')
    /\ (forall inv rate, step ENABLING (LSetup inv rate) w' = None)
    /\ (forall id,
          source_armed id w = true -> load_values (iface w) = true ->
          exists w'', step ENABLING (LTick id) w' = Some w''
                      /\ polls (trace w'') = S (polls (trace w))
                      /\ sources w'' = sources w)
    /\ (forall res,
          load_values_finish (iface w) = true ->
          exists w'', load_values_ready res w' = Some (tt, w'')
                      /\ dbus_skeleton w'' = None).
Proof.
  destruct w as [[lv lvf] sk ex st rc src nxt lif aif tr].
  unfold mm_iface_modem_signal_shutdown, mm_iface_modem_signal_enable,
    setup_refresh_context, load_values_ready, step, source_armed.
  monad_unfold. world_unfold. cbn.
  eexists. split; [reflexivity|]. cbn. repeat split.
  - intros id Harmed Hload. rewrite Harmed, Hload. cbn.
    eexists. split; [reflexivity|]. cbn. split; [|reflexivity].
    rewrite polls_app. cbn. lia.
  - intros res Hfinish. rewrite Hfinish. cbn.
    destruct res; cbn; eexists; split; reflexivity.
Qed.

(** X17.  A completed load overwrites every published measurement: after
    it the skeleton holds exactly what this load reported (each value with
    the availability flag of its technology) or, after an error, unavailable
    throughout; nothing of an earlier load survives.  A successful load is
    followed by a flush and by nothing else.  Whatever the outcome, the rate,
    the refresh context, the timers and the pending authorisations are left
    alone and no bus caller is answered. *)
Theorem load_values_ready_outcome (w : World) (res : result LoadedValues)
    (skeleton : MmGdbusModemSignal) :
  load_values_finish (iface w) = true ->
  dbus_skeleton w = Some skeleton ->
  exists w' evs,
    load_values_ready res w = Some (tt, w')
    /\ published_values w' = Some (outcome_values res)
    /\ published_rate w' = published_rate w
    /\ refresh_context w' = refresh_context w
    /\ sources w' = sources w
    /\ auth_in_flight w' = auth_in_flight w
    /\ trace w' = trace w ++ evs
    /\ filter is_reply_event evs = []
    /\ quiet evs
    /\ match res with
       | Ok _ => evs = [EvFlush]
       | Error _ => filter (fun e => match e with EvFlush => true | _ => false end) evs = []
       end.
Proof.
  intros Hfinish Hsk.
  destruct w as [[lv lvf] sk ex st rc src nxt lif aif tr]. cbn in *. subst.
  unfold load_values_ready, published_values, published_rate, quiet.
  monad_unfold. world_unfold. cbn.
  destruct res as [values|error]; cbn.
  all: eexists _, [_]; split; [reflexivity|]; cbn; repeat split.
Qed.

(** X18.  Nothing holds a tick back while earlier loads are still
    pending: [n] ticks of an armed source start [n] loads, one on top of the
    other, and leave the source, the context and the skeleton as they
    were. *)
Theorem ticks_start_overlapping_loads (n : nat) :
  forall (w : World) (id : Z),
    source_armed id w = true ->
    load_values (iface w) = true ->
    exists w',
      run ENABLING (repeat (LTick id) n) w = Some w'
      /\ loads_in_flight w' = (n + loads_in_flight w)%nat
      /\ polls (trace w') = (n + polls (trace w))%nat
      /\ sources w' = sources w
      /\ refresh_context w' = refresh_context w
      /\ dbus_skeleton w' = dbus_skeleton w.
Proof.
  induction n as [|n IH]; intros w id Harmed Hload.
  - exists w. cbn. repeat split.
  - cbn [repeat run].
    assert (Hstep : step ENABLING (LTick id) w
                    = Some (set_loads_in_flight (S (loads_in_flight w))
                              (add_event EvLoadValues w))).
    { unfold step, refresh_context_cb. monad_unfold.
      rewrite Harmed, Hload. reflexivity. }
    rewrite Hstep.
    destruct (IH (set_loads_in_flight (S (loads_in_flight w))
                    (add_event EvLoadValues w)) id)
      as (w' & H1 & H2 & H3 & H4 & H5 & H6).
    + destruct w. exact Harmed.
    + destruct w. exact Hload.
    + exists w'. destruct w. cbn in *. rewrite polls_app in H3. cbn in H3.
      repeat split; auto; lia.
Qed.

Lemma request_in_flight (ctx : HandleSetupContext)
    (l : list HandleSetupContext) :
  existsb (handle_setup_context_eqb ctx) (l ++ [ctx]) = true.
Proof.
  rewrite existsb_app. cbn. unfold handle_setup_context_eqb.
  rewrite !Z.eqb_refl. cbn. apply orb_true_r.
Qed.

(** X19.  A rate set while the modem is below ENABLING is only published;
    it takes effect at the next [enable] once the modem has reached ENABLING:
    an authorised [Setup (r)] below ENABLING arms nothing, and after the state
    rises [enable], which takes no rate of its own, arms the timer at [r] and
    starts the first load. *)
Theorem setup_below_then_enable_arms (w : World)
    (skeleton : MmGdbusModemSignal) (inv r st' : Z) :
  dbus_skeleton w = Some skeleton ->
  exported w = true ->
  handle_setup_connected skeleton = true ->
  load_values (iface w) = true ->
  refresh_context w = None ->
  sources w = [] ->
  0 < next_source_id w ->
  modem_state w < ENABLING ->
  ENABLING <= st' ->
  r <> 0 ->
  exists w2 w4,
    run ENABLING [LSetup inv r;
                  LAuthReady {| invocation := inv; setup_rate := r |} (Ok tt)] w
    = Some w2
    /\ refresh_context w2 = None /\ sources w2 = []
    /\ polls (trace w2) = polls (trace w)
    /\ published_rate w2 = Some r
    /\ run ENABLING [LModemState st'; LEnable] w2 = Some w4
    /\ refresh_context w4
       = Some {| rate := r; timeout_source := next_source_id w |}
    /\ sources w4 = [(next_source_id w, r)]
    /\ polls (trace w4) = S (polls (trace w))
    /\ published_rate w4 = Some r.
Proof.
  intros Hsk Hex Hhs Hload Hrc Hsrc Hnxt Hst Hst' Hr.
  destruct w as [[lv lvf] sk ex st rc src nxt lif aif tr]. cbn in *. subst.
  destruct skeleton as [pr props hs]. cbn in Hhs. subst hs.
  apply Z.ltb_lt in Hst. apply Z.ltb_ge in Hst'.
  unfold published_rate.
  set (ctx := {| invocation := inv; setup_rate := r |}).
  assert (Hin := request_in_flight ctx aif).
  destruct r as [|p|p]; [now destruct Hr| |].
  all: step_unfold; cbn; rewrite Hin; cbn; rewrite Hst; cbn.
  all: eexists _, _; split; [reflexivity|]; cbn.
  all: rewrite Hst'; cbn.
  all: rewrite ?polls_app; cbn.
  all: repeat split; try reflexivity.
  all: cbn; rewrite ?polls_app; cbn; lia.
Qed.

(** X20.  The published rate changes only in three ways: an authorised
    [Setup] sets it to the requested rate, [initialize] creating the skeleton
    starts it at 0, and [shutdown] takes it away with the skeleton.  Nothing
    else changes it: not [enable], not [disable], not a tick, not a completed
    load, not a denied authorisation, not a change of the modem state. *)
Theorem published_rate_changes (l : Label) (w w' : World) :
  step ENABLING l w = Some w' ->
  match l with
  | LAuthReady ctx (Ok _) =>
      published_rate w' = option_map (fun _ => setup_rate ctx) (dbus_skeleton w)
  | LInitialize =>
      published_rate w' = match dbus_skeleton w with
                          | Some skeleton =>
                              Some (mm_gdbus_modem_signal_get_rate skeleton)
                          | None => Some 0
                          end
  | LShutdown => published_rate w' = None
  | _ => published_rate w' = published_rate w
  end.
Proof.
  intros Hstep. unfold published_rate.
  destruct w as [[lv lvf] sk ex st rc src nxt lif aif tr].
  destruct l as [| | | |inv r|ctx res|id|res|st0];
    try destruct res as [u|e]; step_unfold; case_step Hstep.
  all: injection Hstep as <-; reflexivity.
Qed.

End SignalPolling.

(** ** The sample states are reached by the transition system *)

Example armed_world_reached :
  IfaceModemSignal.run 5 (setup_at_rate 5)
    (IfaceModemSignal.initial_world supported_vtable 5) = Some armed_world.
Proof. vm_compute. reflexivity. Qed.

Example idle_world_below_reached :
  IfaceModemSignal.run 5 [IfaceModemSignal.LInitialize]
    (IfaceModemSignal.initial_world supported_vtable 3) = Some idle_world_below.
Proof. vm_compute. reflexivity. Qed.

Example armed_world_timers_owned : IfaceModemSignal.timers_owned armed_world.
Proof.
  apply (run_timers_owned 5 (setup_at_rate 5)
           (IfaceModemSignal.initial_world supported_vtable 5)).
  - apply initial_timers_owned.
  - exact armed_world_reached.
Qed.

(** C2 as stated fails: polling every 5 seconds is set up at state 5, the
    device then drops to state 3, and the next tick of the timer starts a
    backend load all the same. *)
Lemma never_polls_below_enabling_counterexample :
  IfaceModemSignal.run 5
    (setup_at_rate 5 ++ [IfaceModemSignal.LModemState 3])
    (IfaceModemSignal.initial_world supported_vtable 5)
  = Some armed_world_below
  /\ IfaceModemSignal.modem_state armed_world_below < 5
  /\ IfaceModemSignal.step 5 (IfaceModemSignal.LTick 1) armed_world_below
     = Some armed_world_below_ticked
  /\ IfaceModemSignal.polls (IfaceModemSignal.trace armed_world_below) = 1%nat
  /\ IfaceModemSignal.polls (IfaceModemSignal.trace armed_world_below_ticked)
     = 2%nat
  /\ ~ IfaceModemSignal.never_polls_below_enabling 5.
Proof.
  assert (Hrun : IfaceModemSignal.run 5
            (setup_at_rate 5 ++ [IfaceModemSignal.LModemState 3])
            (IfaceModemSignal.initial_world supported_vtable 5)
          = Some armed_world_below) by (vm_compute; reflexivity).
  assert (Hstep : IfaceModemSignal.step 5 (IfaceModemSignal.LTick 1)
                    armed_world_below = Some armed_world_below_ticked)
    by (vm_compute; reflexivity).
  repeat split; try assumption; try reflexivity.
  intros Hnever.
  specialize (Hnever _ _ _ _ _ _ Hrun ltac:(reflexivity) Hstep).
  discriminate Hnever.
Qed.

Example disabled_world_below_reached :
  IfaceModemSignal.run 5
    [IfaceModemSignal.LDisable; IfaceModemSignal.LModemState 3] armed_world
  = Some disabled_world_below.
Proof. vm_compute. reflexivity. Qed.

Lemma polling_below_enabling_witness :
  (exists w' evs,
     IfaceModemSignal.setup_refresh_context 5 true 10 idle_world_below
     = Some (Ok tt, w')
     /\ IfaceModemSignal.refresh_context w' = None
     /\ IfaceModemSignal.sources w' = []
     /\ IfaceModemSignal.loads_in_flight w' = O
     /\ IfaceModemSignal.trace w' = [] ++ evs /\ IfaceModemSignal.quiet evs)
  /\ ((forall src,
         In src (IfaceModemSignal.sources armed_world_below_ticked) ->
         In src (IfaceModemSignal.sources armed_world_below))
      /\ IfaceModemSignal.source_armed 1 armed_world_below = true
      /\ IfaceModemSignal.polls (IfaceModemSignal.trace armed_world_below_ticked)
         = S (IfaceModemSignal.polls (IfaceModemSignal.trace armed_world_below)))
  /\ (exists w',
        IfaceModemSignal.run 5 below_enabling_activity disabled_world_below
        = Some w'
        /\ IfaceModemSignal.refresh_context w' = None
        /\ IfaceModemSignal.sources w' = []
        /\ IfaceModemSignal.polls (IfaceModemSignal.trace w')
           = IfaceModemSignal.polls (IfaceModemSignal.trace disabled_world_below))
  /\ (IfaceModemSignal.refresh_context idle_world_below = None
      /\ IfaceModemSignal.sources idle_world_below = []
      /\ IfaceModemSignal.polls (IfaceModemSignal.trace idle_world_below) = O).
Proof.
  split; [|split; [|split]].
  - apply (proj1 (polling_below_enabling 5) idle_world_below true 10 10).
    + reflexivity.
    + lia.
    + simpl. lia.
  - apply (proj1 (proj2 (polling_below_enabling 5))
             armed_world_below armed_world_below_ticked
             (IfaceModemSignal.LTick 1)).
    + simpl. lia.
    + vm_compute. reflexivity.
  - destruct (IfaceModemSignal.run 5 below_enabling_activity
                disabled_world_below) as [w'|] eqn:Hrun;
      [|vm_compute in Hrun; discriminate Hrun].
    exists w'. split; [reflexivity|].
    apply (proj1 (proj2 (proj2 (polling_below_enabling 5)))
             disabled_world_below w' below_enabling_activity).
    + simpl. lia.
    + reflexivity.
    + reflexivity.
    + intros st [H|[H|[H|[H|[H|[H|[]]]]]]]; try discriminate H.
      injection H as <-. lia.
    + exact Hrun.
  - apply (proj2 (proj2 (proj2 (polling_below_enabling 5))) supported_vtable 3
             [IfaceModemSignal.LInitialize] idle_world_below).
    + lia.
    + intros st [H|[]]. discriminate H.
    + vm_compute. reflexivity.
Defined.

Lemma setup_refresh_context_same_rate_witness :
  exists w' evs,
    IfaceModemSignal.setup_refresh_context 5 true 5 armed_world
    = Some (Ok tt, w')
    /\ IfaceModemSignal.refresh_context w'
       = Some {| IfaceModemSignal.rate := 5;
                 IfaceModemSignal.timeout_source := 1 |}
    /\ IfaceModemSignal.sources w' = IfaceModemSignal.sources armed_world
    /\ IfaceModemSignal.next_source_id w'
       = IfaceModemSignal.next_source_id armed_world
    /\ IfaceModemSignal.loads_in_flight w'
       = IfaceModemSignal.loads_in_flight armed_world
    /\ IfaceModemSignal.trace w' = IfaceModemSignal.trace armed_world ++ evs
    /\ IfaceModemSignal.quiet evs.
Proof.
  apply (setup_refresh_context_same_rate 5 armed_world true 5 5
           {| IfaceModemSignal.rate := 5;
              IfaceModemSignal.timeout_source := 1 |}).
  - reflexivity.
  - lia.
  - reflexivity.
  - reflexivity.
  - simpl. lia.
Defined.

Lemma setup_refresh_context_rate_zero_witness :
  exists w',
    IfaceModemSignal.setup_refresh_context 5 true 0 armed_world
    = Some (Ok tt, w')
    /\ IfaceModemSignal.refresh_context w' = None
    /\ (forall ctx,
          IfaceModemSignal.refresh_context armed_world = Some ctx ->
          IfaceModemSignal.timeout_source ctx <> 0 ->
          IfaceModemSignal.source_armed (IfaceModemSignal.timeout_source ctx) w'
          = false)
    /\ (IfaceModemSignal.timers_owned armed_world ->
        IfaceModemSignal.sources w' = [])
    /\ IfaceModemSignal.measurements_unavailable w'
    /\ (exists skeleton,
          IfaceModemSignal.dbus_skeleton w' = Some skeleton
          /\ IfaceModemSignal.mm_gdbus_modem_signal_get_rate skeleton = 0)
    /\ IfaceModemSignal.polls (IfaceModemSignal.trace w')
       = IfaceModemSignal.polls (IfaceModemSignal.trace armed_world).
Proof.
  apply (setup_refresh_context_rate_zero 5 armed_world true 0).
  reflexivity.
Defined.

Lemma load_values_ready_error_witness :
  exists w',
    IfaceModemSignal.load_values_ready (Error backend_error) armed_world
    = Some (tt, w')
    /\ IfaceModemSignal.measurements_unavailable w'
    /\ IfaceModemSignal.refresh_context w'
       = IfaceModemSignal.refresh_context armed_world
    /\ IfaceModemSignal.sources w' = [(1, 5)].
Proof.
  destruct (load_values_ready_error 5 armed_world backend_error eq_refl)
    as (w' & H1 & H2 & H3 & H4 & _).
  exists w'. repeat split; assumption.
Defined.

(** ** Instances of the further properties *)

Lemma encode_decode_roundtrip_witness :
  FirmwareUpdateSettings.decode 1
    (FirmwareUpdateSettings.mm_firmware_update_settings_get_variant 1
       (Some fastboot_settings))
  = Ok fastboot_settings
  /\ (FirmwareUpdateSettings.mm_firmware_update_settings_get_variant 1
        (Some fastboot_settings_not_utf8)
      = Some (GV_tuple [GV_uint32 1; GV_vardict []])
      /\ FirmwareUpdateSettings.decode 1
           (FirmwareUpdateSettings.mm_firmware_update_settings_get_variant 1
              (Some fastboot_settings_not_utf8))
         = Error FirmwareUpdateSettings.fastboot_at_required).
Proof.
  split.
  - apply (proj2 (proj1 (encode_decode_roundtrip 1 fastboot_settings))).
    split; [reflexivity|]. exists "AT^FASTBOOT". split; reflexivity.
  - apply (proj2 (encode_decode_roundtrip 1 fastboot_settings_not_utf8));
      reflexivity.
Defined.

Lemma decode_encode_normal_form_witness :
  exists cmd,
    FirmwareUpdateSettings.consumed_fastboot_at None fastboot_wire_repeated
    = Some (utf8_bytes cmd)
    /\ FirmwareUpdateSettings.mm_firmware_update_settings_get_variant 1
         (Some fastboot_settings)
       = Some (GV_tuple [GV_uint32 1;
                         GV_vardict [("fastboot-at", GV_string cmd)]]).
Proof.
  apply (decode_encode_normal_form 1 fastboot_wire_repeated fastboot_settings).
  reflexivity.
Defined.

Lemma decoded_settings_valid_witness :
  exists m dictionary,
    Some (GV_tuple [GV_uint32 1; GV_vardict fastboot_wire_repeated])
    = Some (GV_tuple [GV_uint32 m; GV_vardict dictionary])
    /\ FirmwareUpdateSettings.all_fastboot_at dictionary
    /\ FirmwareUpdateSettings.method fastboot_settings = m
    /\ FirmwareUpdateSettings.fastboot_at fastboot_settings
       = FirmwareUpdateSettings.consumed_fastboot_at None dictionary
    /\ FirmwareUpdateSettings.valid_settings 1 fastboot_settings.
Proof.
  apply (decoded_settings_valid 1
           (Some (GV_tuple [GV_uint32 1; GV_vardict fastboot_wire_repeated]))
           fastboot_settings).
  reflexivity.
Defined.

Lemma decode_error_invalid_args_witness :
  error_code FirmwareUpdateSettings.fastboot_at_required
  = MM_CORE_ERROR_INVALID_ARGS.
Proof.
  apply (decode_error_invalid_args 1
           (Some (GV_tuple [GV_uint32 1; GV_vardict []]))).
  reflexivity.
Defined.

Lemma decode_stops_at_unknown_key_witness :
  FirmwareUpdateSettings.mm_firmware_update_settings_new_from_variant 1
    (Some (GV_tuple [GV_uint32 1;
                     GV_vardict (fastboot_settings_wire
                                   ++ ("version", GV_string (utf8_text "1"))
                                   :: fastboot_wire_repeated)]))
  = (Error (FirmwareUpdateSettings.unexpected_key "version"),
     FirmwareUpdateSettings.EvObjectNew 1
       :: map (fun e => FirmwareUpdateSettings.EvConsume (fst e))
            fastboot_settings_wire
       ++ [FirmwareUpdateSettings.EvConsume "version";
           FirmwareUpdateSettings.EvObjectUnref]).
Proof.
  apply (decode_stops_at_unknown_key 1 1 fastboot_settings_wire
           fastboot_wire_repeated "version" (GV_string (utf8_text "1"))).
  - intros key value [H|[]]. inversion H. reflexivity.
  - discriminate.
Defined.

Lemma decode_last_entry_decides_witness :
  FirmwareUpdateSettings.decode 1
    (Some (GV_tuple [GV_uint32 1;
                     GV_vardict (fastboot_settings_wire
                                   ++ [("fastboot-at", GV_uint32 3)])]))
  = Error FirmwareUpdateSettings.fastboot_at_required.
Proof.
  apply (decode_last_entry_decides 1 1 fastboot_settings_wire (GV_uint32 3)).
  intros key value [H|[]]. inversion H. reflexivity.
Defined.

Lemma fastboot_at_set_get_witness :
  FirmwareUpdateSettings.mm_firmware_update_settings_get_fastboot_at 1
    (Some (FirmwareUpdateSettings.mm_firmware_update_settings_set_fastboot_at 1
             (FirmwareUpdateSettings.mm_firmware_update_settings_new 0)
             (Some "AT^FASTBOOT")))
  = None.
Proof.
  apply (fastboot_at_set_get 1
           (FirmwareUpdateSettings.mm_firmware_update_settings_new 0)
           (Some "AT^FASTBOOT")).
  simpl. lia.
Defined.

Lemma setup_refresh_context_outcome_witness :
  exists w',
    IfaceModemSignal.setup_refresh_context 5 true 10 armed_world
    = Some (Ok tt, w')
    /\ IfaceModemSignal.published_rate w' = Some 10
    /\ IfaceModemSignal.modem_state w' = 5.
Proof.
  apply (setup_refresh_context_outcome 5 armed_world true 10).
  reflexivity.
Defined.

Lemma setup_refresh_context_arms_timer_witness :
  exists w',
    IfaceModemSignal.setup_refresh_context 5 true 10 armed_world
    = Some (Ok tt, w')
    /\ IfaceModemSignal.refresh_context w'
       = Some {| IfaceModemSignal.rate := 10;
                 IfaceModemSignal.timeout_source := 2 |}
    /\ IfaceModemSignal.sources w' = [(2, 10)]
    /\ IfaceModemSignal.loads_in_flight w' = 2%nat
    /\ IfaceModemSignal.polls (IfaceModemSignal.trace w') = 2%nat
    /\ IfaceModemSignal.published_rate w' = Some 10
    /\ IfaceModemSignal.published_values w'
       = Some IfaceModemSignal.cleared_properties.
Proof.
  apply (setup_refresh_context_arms_timer 5 armed_world true 10 10).
  - reflexivity.
  - lia.
  - simpl. lia.
  - reflexivity.
  - split; [simpl; lia|reflexivity].
  - intros ctx H. injection H as <-. simpl. lia.
Defined.

Lemma handle_setup_auth_ready_replies_once_witness :
  exists w' evs,
    IfaceModemSignal.handle_setup_auth_ready 5 (Ok tt) (setup_request 10)
      armed_world = Some (tt, w')
    /\ IfaceModemSignal.trace w' = IfaceModemSignal.trace armed_world ++ evs
    /\ filter IfaceModemSignal.is_reply_event evs
       = [IfaceModemSignal.EvCompleteSetup 7]
    /\ IfaceModemSignal.auth_in_flight w' = [].
Proof.
  apply (handle_setup_auth_ready_replies_once 5 armed_world (setup_request 10)
           (Ok tt)).
  reflexivity.
Defined.

Lemma reachable_polling_state_witness :
  IfaceModemSignal.polling_state armed_world.
Proof.
  apply (reachable_polling_state 5 supported_vtable 5 (setup_at_rate 5)
           armed_world).
  vm_compute. reflexivity.
Defined.

Lemma unsupported_never_polls_witness :
  IfaceModemSignal.unsupported_idle unsupported_world.
Proof.
  apply (unsupported_never_polls 5 unsupported_vtable 6
           [IfaceModemSignal.LInitialize; IfaceModemSignal.LEnable]
           unsupported_world).
  - reflexivity.
  - vm_compute. reflexivity.
Defined.

Lemma load_values_ready_outcome_witness :
  exists w' evs,
    IfaceModemSignal.load_values_ready (Ok cdma_only_values) armed_world
    = Some (tt, w')
    /\ IfaceModemSignal.published_values w'
       = Some (IfaceModemSignal.loaded_properties cdma_only_values)
    /\ IfaceModemSignal.published_rate w' = Some 5
    /\ IfaceModemSignal.refresh_context w'
       = IfaceModemSignal.refresh_context armed_world
    /\ IfaceModemSignal.sources w' = [(1, 5)]
    /\ IfaceModemSignal.auth_in_flight w' = []
    /\ IfaceModemSignal.trace w' = IfaceModemSignal.trace armed_world ++ evs
    /\ filter IfaceModemSignal.is_reply_event evs = []
    /\ IfaceModemSignal.quiet evs
    /\ evs = [IfaceModemSignal.EvFlush].
Proof.
  apply (load_values_ready_outcome armed_world (Ok cdma_only_values)
           (exported_skeleton 5)).
  - reflexivity.
  - reflexivity.
Defined.

Lemma ticks_start_overlapping_loads_witness :
  exists w',
    IfaceModemSignal.run 5 (repeat (IfaceModemSignal.LTick 1) 3) armed_world
    = Some w'
    /\ IfaceModemSignal.loads_in_flight w' = 4%nat
    /\ IfaceModemSignal.polls (IfaceModemSignal.trace w') = 4%nat
    /\ IfaceModemSignal.sources w' = [(1, 5)]
    /\ IfaceModemSignal.refresh_context w'
       = IfaceModemSignal.refresh_context armed_world
    /\ IfaceModemSignal.dbus_skeleton w'
       = IfaceModemSignal.dbus_skeleton armed_world.
Proof.
  apply (ticks_start_overlapping_loads 5 3 armed_world 1).
  - reflexivity.
  - reflexivity.
Defined.

Lemma setup_below_then_enable_arms_witness :
  exists w2 w4,
    IfaceModemSignal.run 5
      [IfaceModemSignal.LSetup 7 10;
       IfaceModemSignal.LAuthReady (setup_request 10) (Ok tt)]
      idle_world_below = Some w2
    /\ IfaceModemSignal.refresh_context w2 = None
    /\ IfaceModemSignal.sources w2 = []
    /\ IfaceModemSignal.polls (IfaceModemSignal.trace w2) = O
    /\ IfaceModemSignal.published_rate w2 = Some 10
    /\ IfaceModemSignal.run 5
         [IfaceModemSignal.LModemState 5; IfaceModemSignal.LEnable] w2
       = Some w4
    /\ IfaceModemSignal.refresh_context w4
       = Some {| IfaceModemSignal.rate := 10;
                 IfaceModemSignal.timeout_source := 1 |}
    /\ IfaceModemSignal.sources w4 = [(1, 10)]
    /\ IfaceModemSignal.polls (IfaceModemSignal.trace w4) = 1%nat
    /\ IfaceModemSignal.published_rate w4 = Some 10.
Proof.
  apply (setup_below_then_enable_arms 5 idle_world_below (exported_skeleton 0)
           7 10 5).
  all: try reflexivity; simpl; lia.
Defined.

Lemma published_rate_changes_witness :
  IfaceModemSignal.published_rate armed_world_below_ticked
  = IfaceModemSignal.published_rate armed_world_below.
Proof.
  apply (published_rate_changes 5 (IfaceModemSignal.LTick 1)
           armed_world_below armed_world_below_ticked).
  vm_compute. reflexivity.
Defined.

(** [g_utf8_validate] on the edges of the encoding: ASCII, a two-byte and a
    three-byte character and the last code point pass; an overlong form, a
    surrogate, a code point above U+10FFFF, a truncated sequence and a lone
    0xFF byte do not. *)
Example g_utf8_validate_cases :
  map (fun bytes =>
         g_utf8_validate
           (fold_right (fun n rest => String (ascii_of_N n) rest)
                       EmptyString bytes))
      [[65; 84]; [195; 169]; [226; 130; 172]; [244; 143; 191; 191];
       [192; 128]; [237; 160; 128]; [244; 144; 128; 128]; [226; 130];
       [255]]%N
  = [true; true; true; true; false; false; false; false; false].
Proof. vm_compute. reflexivity. Qed.
